(** * TrueSight sprint-0 chart generators

    A shallow embedding of the two chart scripts of the repository,
    [generate_burndown.py] and [generate_burndown_charts.py], together with
    the small parts of the Python runtime they rest on ([datetime],
    [numpy.linspace], the [matplotlib.pyplot] calls they issue), and the
    properties of the sprint dataset, of the derived ideal line and of the
    files the scripts write.

    Conventions.
    - A Python [int] is a [Z].  A Python [float] is modelled twice: in
      [Module Binary64] as the IEEE double the interpreter computes with
      (Rocq's primitive floats; [Module Doubles] holds the doubles of the
      scripts), and as a rational in exact arithmetic, a [Q] kept in lowest
      terms (every operation ends in [Qred], so equal numbers are equal
      terms).  The figures of the model carry the exact values; the doubles
      differ from them by rounding, and the theorems on the ideal line and
      on the velocity say by how much.
    - A raised exception is a [Raise] result; nothing in the scripts catches
      one, so it ends the run.
    - [matplotlib] is modelled by what the scripts ask of it: the sequence of
      drawing calls made on the current figure, and the files written by
      [savefig]. *)

From Stdlib Require Import ZArith QArith Qround Qabs Sorted List String Ascii.
From Stdlib Require Import Floats Uint63 Lia.
From Stdlib Require Qcanon.
From stdpp Require Import gmap strings list pretty.
Import ListNotations.

Local Open Scope string_scope.
Local Open Scope Z_scope.

(** ** Exceptions and results *)

Inductive exn : Type :=
| ValueError
| IndexError
| ZeroDivisionError
| FileNotFoundError.

Inductive Result (A : Type) : Type :=
| Ok (a : A)
| Raise (e : exn).
Arguments Ok {A} a.
Arguments Raise {A} e.

#[global] Instance Result_ret : MRet Result := fun _ a => Ok a.
#[global] Instance Result_bind : MBind Result := fun _ _ f m =>
  match m with
  | Ok a => f a
  | Raise e => Raise e
  end.
#[global] Instance Result_fmap : FMap Result := fun _ _ f m =>
  match m with
  | Ok a => Ok (f a)
  | Raise e => Raise e
  end.

(** [result_mapM f l]: the list comprehension [[f(x) for x in l]] when [f]
    may raise; the first exception ends the comprehension. *)
Fixpoint result_mapM {A B : Type} (f : A -> Result B) (l : list A)
  : Result (list B) :=
  match l with
  | [] => Ok []
  | x :: l' =>
      match f x with
      | Ok y =>
          match result_mapM f l' with
          | Ok ys => Ok (y :: ys)
          | Raise e => Raise e
          end
      | Raise e => Raise e
      end
  end.

(** ** Python lists and integers *)

Definition len {A : Type} (l : list A) : Z := Z.of_nat (length l).

(** [l[i]], negative indices counting from the end. *)
Definition getitem {A : Type} (l : list A) (i : Z) : Result A :=
  let j := if i <? 0 then len l + i else i in
  if j <? 0 then Raise IndexError
  else match l !! Z.to_nat j with
       | Some x => Ok x
       | None => Raise IndexError
       end.

(** [range(lo, lo + n)] for a natural number [n] of items. *)
Fixpoint range_from (lo : Z) (n : nat) : list Z :=
  match n with
  | O => []
  | S n' => lo :: range_from (lo + 1) n'
  end.

(** [range(0, num)], also [numpy.arange(0, num)] before the conversion to
    floating point; empty when [num <= 0]. *)
Definition arange (num : Z) : list Z := range_from 0 (Z.to_nat num).

(** [l.index(x)] on a list of integers: the first position holding [x]. *)
Fixpoint index_of (x : Z) (l : list Z) : Result Z :=
  match l with
  | [] => Raise ValueError
  | y :: l' => if y =? x then Ok 0 else (fun i => i + 1) <$> index_of x l'
  end.

(** [s * n] for a string [s]. *)
Fixpoint str_repeat (s : string) (n : nat) : string :=
  match n with
  | O => ""
  | S n' => s ++ str_repeat s n'
  end.

Definition newline : string := String (ascii_of_nat 10) "".

(** ** Exact arithmetic on floats *)

Module Exact.

Definition of_int (z : Z) : Q := inject_Z z.
Definition add (a b : Q) : Q := Qred (a + b).
Definition sub (a b : Q) : Q := Qred (a - b).
Definition mul (a b : Q) : Q := Qred (a * b).
(** [a / b] where the caller has excluded [b = 0]. *)
Definition div (a b : Q) : Q := Qred (a / b).

(** Python's true division [a / b] of two integers. *)
Definition truediv (a b : Z) : Result Q :=
  if b =? 0 then Raise ZeroDivisionError
  else Ok (div (of_int a) (of_int b)).

(** [int(q)]: the integer part, rounding toward zero. *)
Definition to_int (q : Q) : Z :=
  if Qle_bool 0 q then Qfloor q else Qceiling q.

(** Round to the nearest integer, ties to even. *)
Definition round_half_even (q : Q) : Z :=
  let f := Qfloor q in
  let r := (q - inject_Z f)%Q in
  match (r ?= 1 # 2)%Q with
  | Lt => f
  | Gt => f + 1
  | Eq => if Z.even f then f else f + 1
  end.

Definition pad2 (z : Z) : string :=
  if z <? 10 then "0" ++ pretty z else pretty z.

(** The format specification [.2f]: two digits after the point, the value
    rounded to the nearest hundredth. *)
Definition format_2f (q : Q) : string :=
  let h := round_half_even (q * 100)%Q in
  let a := Z.abs h in
  (if h <? 0 then "-" else "") ++ pretty (a / 100) ++ "." ++ pad2 (a mod 100).

End Exact.

(** ** [datetime]

    The part of CPython's [datetime] the scripts use: parsing with the format
    [%Y-%m-%d], the proleptic Gregorian ordinal, [weekday()], comparison,
    subtraction and [.days], and [strftime] with [%B %d, %Y].  The values the
    scripts build all have time 00:00:00, so only the date fields are kept. *)

Module Datetime.

Record datetime : Type := mk_datetime { year : Z; month : Z; day : Z }.

#[global] Instance datetime_eq_dec : EqDecision datetime.
Proof. solve_decision. Defined.

Definition is_leap (y : Z) : bool :=
  (y mod 4 =? 0) && (negb (y mod 100 =? 0) || (y mod 400 =? 0)).

Definition DAYS_IN_MONTH : list Z :=
  [-1; 31; 28; 31; 30; 31; 30; 31; 31; 30; 31; 30; 31].

Definition DAYS_BEFORE_MONTH : list Z :=
  [-1; 0; 31; 59; 90; 120; 151; 181; 212; 243; 273; 304; 334].

Definition days_before_year (y : Z) : Z :=
  let y1 := y - 1 in
  y1 * 365 + y1 / 4 - y1 / 100 + y1 / 400.

Definition days_in_month (y m : Z) : Z :=
  if (m =? 2) && is_leap y then 29
  else default 0 (DAYS_IN_MONTH !! Z.to_nat m).

Definition days_before_month (y m : Z) : Z :=
  default 0 (DAYS_BEFORE_MONTH !! Z.to_nat m)
  + (if (2 <? m) && is_leap y then 1 else 0).

Definition ymd2ord (y m d : Z) : Z :=
  days_before_year y + days_before_month y m + d.

Definition toordinal (t : datetime) : Z :=
  ymd2ord (year t) (month t) (day t).

(** Monday is 0, Sunday is 6. *)
Definition weekday (t : datetime) : Z := (toordinal t + 6) mod 7.

(** [(a - b).days] *)
Definition sub_days (a b : datetime) : Z := toordinal a - toordinal b.

(** [a < b]: the fields compared in order. *)
Definition ltb (a b : datetime) : bool :=
  (year a <? year b)
  || ((year a =? year b)
      && ((month a <? month b)
          || ((month a =? month b) && (day a <? day b)))).

Definition digit (c : ascii) : option Z :=
  let n := Z.of_nat (nat_of_ascii c) in
  if (48 <=? n) && (n <=? 57) then Some (n - 48) else None.

Fixpoint digits (cs : list ascii) (acc : Z) : option Z :=
  match cs with
  | [] => Some acc
  | c :: cs' =>
      match digit c with
      | Some d => digits cs' (10 * acc + d)
      | None => None
      end
  end.

Definition check_ymd (y m d : Z) : Result datetime :=
  if (1 <=? y) && (1 <=? m) && (m <=? 12)
     && (1 <=? d) && (d <=? days_in_month y m)
  then Ok (mk_datetime y m d)
  else Raise ValueError.

(** [datetime.strptime(s, "%Y-%m-%d")] on zero-padded input: four digits,
    a dash, two digits, a dash, two digits, as every string of the scripts
    is.  On such a string the result is CPython's: the date, or a
    [ValueError] when it does not exist.  CPython also takes strings of
    other shapes (a month or a day of one digit, say), which this model
    refuses: what is proved of parsing is proved of padded strings only. *)
Definition strptime (s : string) : Result datetime :=
  match list_ascii_of_string s with
  | [y1; y2; y3; y4; dash1; m1; m2; dash2; d1; d2] =>
      if negb (Ascii.eqb dash1 "-" && Ascii.eqb dash2 "-")
      then Raise ValueError
      else
        match digits [y1; y2; y3; y4] 0, digits [m1; m2] 0,
              digits [d1; d2] 0 with
        | Some y, Some m, Some d => check_ymd y m d
        | _, _, _ => Raise ValueError
        end
  | _ => Raise ValueError
  end.

Definition MONTH_NAMES : list string :=
  ["January"; "February"; "March"; "April"; "May"; "June"; "July";
   "August"; "September"; "October"; "November"; "December"].

(** [t.strftime('%B %d, %Y')] *)
Definition strftime_B_d_Y (t : datetime) : string :=
  default "" (MONTH_NAMES !! Z.to_nat (month t - 1))
  ++ " " ++ Exact.pad2 (day t) ++ ", " ++ pretty (year t).

End Datetime.
Import Datetime.

(** ** [numpy.linspace]

    [numpy.linspace(start, stop, num)] for scalar [start] and [stop], with
    the default [endpoint=True], as [numpy/_core/function_base.py] computes
    it: the integers [0 .. num-1] are scaled by [step = (stop - start) / div]
    with [div = num - 1], shifted by [start], and, when there are at least
    two samples, the last one is overwritten with [stop]. *)

(** [y[-1] = v]; an empty array is left alone (the caller checks [num > 1]). *)
Fixpoint set_last {A : Type} (l : list A) (v : A) : list A :=
  match l with
  | [] => []
  | [_] => [v]
  | x :: l' => x :: set_last l' v
  end.

Definition linspace (start stop : Q) (num : Z) : Result (list Q) :=
  if num <? 0 then Raise ValueError
  else
    let div := num - 1 in
    let delta := Exact.sub stop start in
    let y := map Exact.of_int (arange num) in
    let y :=
      if 0 <? div then
        let step := Exact.div delta (Exact.of_int div) in
        if Qeq_bool step 0
        then map (fun v => Exact.mul (Exact.div v (Exact.of_int div)) delta) y
        else map (fun v => Exact.mul v step) y
      else map (fun v => Exact.mul v delta) y in
    let y := map (fun v => Exact.add v start) y in
    let y := if 1 <? num then set_last y stop else y in
    Ok y.

(** Differences of consecutive elements, [numpy.diff]. *)
Fixpoint diffs (l : list Q) : list Q :=
  match l with
  | x :: (y :: _) as l' => Exact.sub y x :: diffs l'
  | _ => []
  end.

(** ** [matplotlib.pyplot]

    A figure is what was asked of it: its size and resolution, the style in
    force when it was made, and the drawing calls in order.  Keyword
    arguments are kept as the scripts write them. *)

Inductive value : Type :=
| VStr (s : string)
| VInt (z : Z)
| VNum (q : Q)
| VBool (b : bool).

Definition kwargs : Type := list (string * value).

Inductive call : Type :=
| plot (x : list datetime) (y : list Q) (fmt : option string) (kw : kwargs)
| axvline (x : datetime) (kw : kwargs)
| scatter (x : list datetime) (y : list Q) (kw : kwargs)
| axvspan (xmin xmax : datetime) (kw : kwargs)
| bar (x : list string) (height : list Z) (kw : kwargs)
| text (x y : Q) (s : string) (kw : kwargs)
| set_title (s : string) (kw : kwargs)
| set_xlabel (s : string) (kw : kwargs)
| set_ylabel (s : string) (kw : kwargs)
| set_ylim (bottom top : Q)
| set_yticks (ticks : list Z)
(** Calls that carry no data of the sprint: tick formatters and locators,
    grid, legend, layout. *)
| styling (name : string) (kw : kwargs).

Record figure : Type := mk_figure {
  figsize : Q * Q;
  fig_dpi : Z;
  fig_style : string;
  calls : list call
}.

(** What a run does to the outside: a line on standard output, or a file
    written by [savefig]. *)
Inductive event : Type :=
| Print (line : string)
| SaveFile (path : string) (format : string) (dpi : Z) (kw : kwargs)
           (content : figure).

(** The state of the interpreter a script runs in, as far as the scripts
    touch it: the style last set, the current figure, what was output so
    far.  [rcParams] and the stack of open figures are not kept: the model
    follows a script from a fresh interpreter ([initial_pystate]), where
    only the darkgrid style is ever set and at most one figure is open. *)
Record pystate : Type := mk_pystate {
  style : string;
  current : option figure;
  events : list event
}.

Definition initial_pystate : pystate :=
  {| style := "default"; current := None; events := [] |}.

(** The monad of a script: interpreter state threaded through, an exception
    ends the computation. *)
Definition Py (A : Type) : Type := pystate -> Result (A * pystate).

#[global] Instance Py_ret : MRet Py := fun _ a s => Ok (a, s).
#[global] Instance Py_bind : MBind Py := fun _ _ f m s =>
  match m s with
  | Ok (a, s') => f a s'
  | Raise e => Raise e
  end.

(** A pure computation that may raise, run inside a script. *)
Definition lift {A : Type} (r : Result A) : Py A := fun s =>
  match r with
  | Ok a => Ok (a, s)
  | Raise e => Raise e
  end.

Definition modify (f : pystate -> pystate) : Py unit := fun s => Ok (tt, f s).

(** [for x in l: body(x)] *)
Fixpoint py_for {A : Type} (l : list A) (body : A -> Py unit) : Py unit :=
  match l with
  | [] => mret tt
  | x :: l' => body x ≫= fun _ => py_for l' body
  end.

(** [enumerate(l)] *)
Definition enumerate {A : Type} (l : list A) : list (Z * A) :=
  zip (range_from 0 (length l)) l.

Definition print (line : string) : Py unit :=
  modify (fun s => {| style := style s; current := current s;
                      events := (events s ++ [Print line])%list |}).

Module plt.

Definition style_use (name : string) : Py unit :=
  modify (fun s => {| style := name; current := current s;
                      events := events s |}).

(** [plt.subplots(figsize=..., dpi=...)]: a new figure, made current. *)
Definition subplots (size : Q * Q) (dpi : Z) : Py unit :=
  modify (fun s =>
    {| style := style s;
       current := Some {| figsize := size; fig_dpi := dpi;
                          fig_style := style s; calls := [] |};
       events := events s |}).

(** The current figure; pyplot makes a default one when there is none. *)
Definition gcf (s : pystate) : figure :=
  default {| figsize := (32 # 5, 24 # 5)%Q; fig_dpi := 100;
             fig_style := style s; calls := [] |} (current s).

(** A drawing call on the axes of the current figure. *)
Definition ax (c : call) : Py unit :=
  modify (fun s =>
    let f := gcf s in
    {| style := style s;
       current := Some {| figsize := figsize f; fig_dpi := fig_dpi f;
                          fig_style := fig_style f;
                          calls := (calls f ++ [c])%list |};
       events := events s |}).

(** The text after the last dot of a file name. *)
Fixpoint extension_aux (cs : list ascii) (acc : option (list ascii))
  : option (list ascii) :=
  match cs with
  | [] => acc
  | c :: cs' =>
      if Ascii.eqb c "." then extension_aux cs' (Some [])
      else extension_aux cs' ((fun a => app a [c]) <$> acc)
  end.

Definition extension (fname : string) : string :=
  string_of_list_ascii
    (default [] (extension_aux (list_ascii_of_string fname) None)).

(** [plt.savefig(fname, dpi=..., format=..., **kw)]: the format is the one
    given, else the extension of the file name; the resolution is the one
    given, else the figure's own ([savefig.dpi] is ['figure'] in a fresh
    interpreter, and the darkgrid style leaves it so). *)
Definition savefig (fname : string) (dpi : option Z)
    (format : option string) (kw : kwargs) : Py unit :=
  modify (fun s =>
    let f := gcf s in
    {| style := style s; current := Some f;
       events := (events s ++
         [SaveFile fname (default (extension fname) format)
                   (default (fig_dpi f) dpi) kw f])%list |}).

Definition close : Py unit :=
  modify (fun s => {| style := style s; current := None;
                      events := events s |}).

End plt.

(** The rectangles [ax.bar] returns: one per category, centred on the
    positions 0, 1, ... with the default width 0.8. *)
Record rectangle : Type := mk_rectangle {
  rect_x : Q;
  rect_width : Q;
  rect_height : Q
}.

Definition ax_bar (x : list string) (height : list Z) (kw : kwargs)
  : Py (list rectangle) :=
  plt.ax (bar x height kw) ≫= fun _ =>
  mret (map (fun '(i, h) =>
               {| rect_x := Exact.sub (Exact.of_int i) (2 # 5);
                  rect_width := 4 # 5;
                  rect_height := Exact.of_int h |})
            (enumerate height)).

(** Running a script from a fresh interpreter: the events it produced, or
    the exception that ended it. *)
Definition run (script : Py unit) : Result (list event) :=
  match script initial_pystate with
  | Ok (_, s) => Ok (events s)
  | Raise e => Raise e
  end.

(** ** The file system the events land in *)

Record image : Type := mk_image {
  img_format : string;
  img_dpi : Z;
  img_kw : kwargs;
  img_content : figure;
  (** the creation time the image library stamps into the file *)
  img_created : Z
}.

(** [dirs]: the directories that exist; permissions are not modelled,
    every directory there is can be written to.  [clock]: the readings of
    the wall clock, [ticks] of them already taken. *)
Record world : Type := mk_world {
  files : gmap string image;
  dirs : gset string;
  console : list string;
  clock : nat -> Z;
  ticks : nat
}.

(** The text before the last slash of a path: [seen] is what was read so
    far, [dir] what stood before the last slash met. *)
Fixpoint dirname_aux (cs seen dir : list ascii) : list ascii :=
  match cs with
  | [] => dir
  | c :: cs' =>
      dirname_aux cs' (app seen [c]) (if Ascii.eqb c "/" then seen else dir)
  end.

Definition dirname (path : string) : string :=
  string_of_list_ascii (dirname_aux (list_ascii_of_string path) [] []).

(** One event against the world.  Writing a file replaces what was there;
    it fails when the directory does not exist. *)
Definition os_step (w : world) (e : event) : Result world :=
  match e with
  | Print line =>
      Ok {| files := files w; dirs := dirs w;
            console := (console w ++ [line])%list;
            clock := clock w; ticks := ticks w |}
  | SaveFile path format dpi kw content =>
      if decide (dirname path ∈ dirs w)
      then Ok {| files := <[path := {| img_format := format; img_dpi := dpi;
                                       img_kw := kw; img_content := content;
                                       img_created := clock w (ticks w) |}]>
                            (files w);
                 dirs := dirs w; console := console w;
                 clock := clock w; ticks := S (ticks w) |}
      else Raise FileNotFoundError
  end.

Fixpoint os_exec (w : world) (es : list event) : Result world :=
  match es with
  | [] => Ok w
  | e :: es' =>
      match os_step w e with
      | Ok w' => os_exec w' es'
      | Raise x => Raise x
      end
  end.

(** A whole run of a script in a world. *)
Definition execute (script : Py unit) (w : world) : Result world :=
  match run script with
  | Ok es => os_exec w es
  | Raise x => Raise x
  end.

(** The paths a list of events writes, in order. *)
Definition written_paths (es : list event) : list string :=
  omap (fun e => match e with
                 | SaveFile path _ _ _ _ => Some path
                 | Print _ => None
                 end) es.

(** ** [generate_burndown.py] *)

Module GenerateBurndown.

(** Sprint 0 actual data (February 4-18, 2026), 15 days. *)
Definition dates_str : list string :=
  ["2026-02-04"; "2026-02-05"; "2026-02-06"; "2026-02-07";
   "2026-02-08"; "2026-02-09"; "2026-02-10"; "2026-02-11";
   "2026-02-12"; "2026-02-13"; "2026-02-14"; "2026-02-15";
   "2026-02-16"; "2026-02-17"; "2026-02-18"].

(** Actual remaining tasks each day. *)
Definition actual_remaining : list Z :=
  [4; 3; 3; 3; 3; 3; 2; 2; 1; 1; 1; 0; 0; 0; 0].

Definition dates : Result (list datetime) :=
  result_mapM strptime dates_str.

(** The ideal burndown, linear from 4 to 0. *)
Definition ideal_burndown : Result (list Q) :=
  ds ← dates; linspace 4 0 (len ds).

Definition completion_date : Result datetime :=
  ds ← dates; getitem ds 11.

Definition create_sprint0_burndown : Py unit :=
  dates ← lift dates;
  ideal_burndown ← lift ideal_burndown;
  plt.subplots (16, 9)%Q 150;;
  plt.ax (plot dates ideal_burndown None
            [("marker", VStr "o"); ("markersize", VInt 10);
             ("linewidth", VInt 3); ("color", VStr "#1f77b4");
             ("label", VStr "Ideal Burndown"); ("alpha", VNum (4 # 5));
             ("zorder", VInt 2)]);;
  plt.ax (plot dates (map Exact.of_int actual_remaining) None
            [("marker", VStr "o"); ("markersize", VInt 10);
             ("linewidth", VInt 3); ("color", VStr "#ff7f0e");
             ("label", VStr "Actual Remaining Tasks");
             ("alpha", VNum (9 # 10)); ("zorder", VInt 3)]);;
  completion_date ← lift completion_date;
  plt.ax (axvline completion_date
            [("color", VStr "green"); ("linestyle", VStr "--");
             ("linewidth", VInt 2); ("alpha", VNum (7 # 10));
             ("label", VStr "Sprint Completed: 15/02/2026")]);;
  plt.ax (scatter [completion_date] [0%Q]
            [("s", VInt 300); ("c", VStr "green"); ("marker", VStr "*");
             ("zorder", VInt 5); ("edgecolors", VStr "black");
             ("linewidth", VInt 2)]);;
  plt.ax (set_title
            ("TrueSight Sprint 0 Burndown (04/02/2026 - 18/02/2026)"
             ++ newline
             ++ "Completed: 4/4 tasks (100%) | Finished 3 days early")
            [("fontsize", VInt 20); ("fontweight", VStr "bold");
             ("pad", VInt 20)]);;
  plt.ax (set_xlabel "Date"
            [("fontsize", VInt 14); ("fontweight", VStr "bold")]);;
  plt.ax (set_ylabel "Remaining Tasks"
            [("fontsize", VInt 14); ("fontweight", VStr "bold")]);;
  plt.ax (styling "xaxis.set_major_formatter"
            [("DateFormatter", VStr "%d/%m/%Y")]);;
  plt.ax (styling "xaxis.set_major_locator"
            [("DayLocator.interval", VInt 1)]);;
  plt.ax (styling "xticks"
            [("rotation", VInt 45); ("ha", VStr "right");
             ("fontsize", VInt 11)]);;
  plt.ax (styling "grid"
            [("visible", VBool true); ("alpha", VNum (2 # 5));
             ("linestyle", VStr "--"); ("linewidth", VNum (4 # 5))]);;
  plt.ax (styling "set_axisbelow" [("b", VBool true)]);;
  plt.ax (set_ylim (-3 # 10) (9 # 2));;
  plt.ax (styling "yaxis.set_major_locator"
            [("MaxNLocator.integer", VBool true)]);;
  plt.ax (styling "legend"
            [("loc", VStr "upper right"); ("fontsize", VInt 13);
             ("frameon", VBool true); ("shadow", VBool true);
             ("fancybox", VBool true); ("framealpha", VNum (19 # 20))]);;
  plt.ax (text (1 # 50) (49 # 50)
            ("‚úÖ Sprint Completed" ++ newline ++ "100% Complete"
             ++ newline ++ "4/4 Tasks Done" ++ newline ++ "3 Days Early")
            [("transform", VStr "ax.transAxes"); ("fontsize", VInt 12);
             ("verticalalignment", VStr "top");
             ("bbox.boxstyle", VStr "round");
             ("bbox.facecolor", VStr "lightgreen");
             ("bbox.alpha", VNum (9 # 10));
             ("family", VStr "monospace"); ("fontweight", VStr "bold")]);;
  plt.ax (styling "tight_layout" []);;
  plt.savefig "docs/images/charts/sprint0_burndown.png" (Some 300) None
              [("bbox_inches", VStr "tight"); ("facecolor", VStr "white")];;
  plt.savefig "docs/images/charts/sprint0_burndown.pdf" None (Some "pdf")
              [("bbox_inches", VStr "tight"); ("facecolor", VStr "white")];;
  print "‚úÖ Sprint 0 burndown chart created successfully!";;
  print "   üìÅ docs/images/charts/sprint0_burndown.png (300 DPI)";;
  print "   üìÅ docs/images/charts/sprint0_burndown.pdf";;
  plt.close.

Definition create_velocity_chart : Py unit :=
  plt.subplots (12, 7)%Q 150;;
  let sprints := ["Sprint 0"] in
  let tasks := [4] in
  bars ← ax_bar sprints tasks
            [("color", VStr "#2ecc71"); ("alpha", VNum (4 # 5));
             ("edgecolor", VStr "black"); ("linewidth", VInt 2)];
  py_for bars (fun b =>
    let height := rect_height b in
    plt.ax (text (Exact.add (rect_x b) (Exact.div (rect_width b) 2))
              height
              (pretty (Exact.to_int height) ++ " tasks" ++ newline ++ "100%")
              [("ha", VStr "center"); ("va", VStr "bottom");
               ("fontsize", VInt 14); ("fontweight", VStr "bold")]));;
  plt.ax (set_title "TrueSight Team Velocity - Sprint 0"
            [("fontsize", VInt 20); ("fontweight", VStr "bold");
             ("pad", VInt 20)]);;
  plt.ax (set_xlabel "Sprint"
            [("fontsize", VInt 14); ("fontweight", VStr "bold")]);;
  plt.ax (set_ylabel "Tasks Completed"
            [("fontsize", VInt 14); ("fontweight", VStr "bold")]);;
  plt.ax (styling "grid"
            [("visible", VBool true); ("alpha", VNum (3 # 10));
             ("axis", VStr "y"); ("linestyle", VStr "--")]);;
  plt.ax (styling "set_axisbelow" [("b", VBool true)]);;
  plt.ax (set_ylim 0 5);;
  plt.ax (styling "tight_layout" []);;
  plt.savefig "docs/images/charts/velocity_sprint0.png" (Some 300) None
              [("bbox_inches", VStr "tight"); ("facecolor", VStr "white")];;
  plt.savefig "docs/images/charts/velocity_sprint0.pdf" None (Some "pdf")
              [("bbox_inches", VStr "tight"); ("facecolor", VStr "white")];;
  print "‚úÖ Velocity chart created successfully!";;
  print "   üìÅ docs/images/charts/velocity_sprint0.png (300 DPI)";;
  print "   üìÅ docs/images/charts/velocity_sprint0.pdf";;
  plt.close.

(** The module run as a program: the style is set when the module is
    loaded, then the [__main__] block. *)
Definition main : Py unit :=
  plt.style_use "seaborn-v0_8-darkgrid";;
  print (str_repeat "=" 70);;
  print "üîç TrueSight Sprint 0 Burndown Chart Generator";;
  print (str_repeat "=" 70);;
  print "";;
  create_sprint0_burndown;;
  print "";;
  create_velocity_chart;;
  print "";;
  print "‚úÖ All charts generated successfully!";;
  print "";;
  print "üìä Next steps:";;
  print "   1. Charts saved to: docs/images/charts/";;
  print "   2. Commit to repository";;
  print "   3. Charts will display in Wiki automatically";;
  print "";;
  print (str_repeat "=" 70).

End GenerateBurndown.

(** ** [generate_burndown_charts.py] *)

Module GenerateBurndownCharts.

(** Sprint 0 data. *)
Definition dates_str : list string :=
  ["2026-02-04"; "2026-02-05"; "2026-02-06"; "2026-02-07"; "2026-02-08";
   "2026-02-09"; "2026-02-10"; "2026-02-11"; "2026-02-12"; "2026-02-13";
   "2026-02-14"; "2026-02-15"; "2026-02-16"; "2026-02-17"; "2026-02-18"].

Definition actual_remaining : list Z :=
  [4; 3; 3; 3; 3; 3; 2; 2; 1; 1; 1; 0; 0; 0; 0].

Definition dates : Result (list datetime) :=
  result_mapM strptime dates_str.

(** The ideal burndown, linear from 4 to 0. *)
Definition ideal_remaining : Result (list Q) :=
  ds ← dates; linspace 4 0 (len ds).

(** Sprint metadata. *)
Definition sprint_start : Result datetime := ds ← dates; getitem ds 0.
Definition sprint_end : Result datetime := ds ← dates; getitem ds (-1).
Definition completion_date : Result datetime := ds ← dates; getitem ds 11.
Definition total_tasks : Z := 4.
Definition completed_tasks : Z := 4.
Definition completion_rate : Z := 100.

(** Velocity. *)
Definition sprint_days : Result Z :=
  e ← sprint_end; s ← sprint_start; mret (sub_days e s + 1).
Definition velocity : Result Q :=
  d ← sprint_days; Exact.truediv total_tasks d.

(** The module-level statements in order, as loading the module runs
    them; the values are handed to the functions below. *)
Record globals : Type := mk_globals {
  g_dates : list datetime;
  g_ideal_remaining : list Q;
  g_sprint_start : datetime;
  g_sprint_end : datetime;
  g_completion_date : datetime;
  g_sprint_days : Z;
  g_velocity : Q
}.

Definition load : Result globals :=
  d ← dates;
  i ← ideal_remaining;
  s ← sprint_start;
  e ← sprint_end;
  c ← completion_date;
  n ← sprint_days;
  v ← velocity;
  mret {| g_dates := d; g_ideal_remaining := i; g_sprint_start := s;
          g_sprint_end := e; g_completion_date := c; g_sprint_days := n;
          g_velocity := v |}.

(** The standard burndown chart. *)
Definition create_standard_burndown (g : globals) : Py unit :=
  plt.style_use "seaborn-v0_8-darkgrid";;
  plt.subplots (14, 8)%Q 300;;
  plt.ax (plot (g_dates g) (g_ideal_remaining g) None
            [("color", VStr "#1f77b4"); ("marker", VStr "o");
             ("markersize", VInt 8); ("linewidth", VNum (5 # 2));
             ("label", VStr "Ideal Burndown"); ("zorder", VInt 3)]);;
  plt.ax (plot (g_dates g) (map Exact.of_int actual_remaining) None
            [("color", VStr "#ff7f0e"); ("marker", VStr "o");
             ("markersize", VInt 8); ("linewidth", VNum (5 # 2));
             ("label", VStr "Actual Remaining Tasks"); ("zorder", VInt 4)]);;
  plt.ax (set_xlabel "Date"
            [("fontsize", VInt 12); ("fontweight", VStr "bold")]);;
  plt.ax (set_ylabel "Remaining Tasks"
            [("fontsize", VInt 12); ("fontweight", VStr "bold")]);;
  plt.ax (set_title "TrueSight Sprint 0 Burndown (04/02/2026 - 18/02/2026)"
            [("fontsize", VInt 16); ("fontweight", VStr "bold");
             ("pad", VInt 20)]);;
  plt.ax (styling "xaxis.set_major_formatter"
            [("DateFormatter", VStr "%d/%m/%Y")]);;
  plt.ax (styling "xaxis.set_major_locator"
            [("DayLocator.interval", VInt 2)]);;
  plt.ax (styling "xticks"
            [("rotation", VInt 45); ("ha", VStr "right")]);;
  plt.ax (set_ylim (-1 # 2) 5);;
  plt.ax (set_yticks (range_from 0 6));;
  plt.ax (styling "yaxis.set_major_formatter"
            [("FuncFormatter", VStr "int")]);;
  plt.ax (styling "grid"
            [("visible", VBool true); ("linestyle", VStr "--");
             ("alpha", VNum (3 # 10)); ("color", VStr "lightgray");
             ("zorder", VInt 1)]);;
  plt.ax (styling "legend"
            [("loc", VStr "upper right"); ("fontsize", VInt 11);
             ("framealpha", VNum (19 # 20))]);;
  plt.ax (styling "tight_layout" []);;
  plt.savefig "docs/images/charts/sprint0_burndown.png" (Some 300) None
              [("bbox_inches", VStr "tight"); ("facecolor", VStr "white")];;
  plt.savefig "docs/images/charts/sprint0_burndown.pdf" None None
              [("bbox_inches", VStr "tight"); ("facecolor", VStr "white")];;
  plt.close;;
  print "✅ Standard burndown chart created:";;
  print "   📁 docs/images/charts/sprint0_burndown.png (300 DPI)";;
  print "   📁 docs/images/charts/sprint0_burndown.pdf".

(** The enhanced burndown chart, with completion markers and weekend
    shading. *)
Definition create_enhanced_burndown (g : globals) : Py unit :=
  plt.style_use "seaborn-v0_8-darkgrid";;
  plt.subplots (16, 9)%Q 300;;
  (* weekend shading: Saturday = 5, Sunday = 6 *)
  py_for (enumerate (g_dates g)) (fun '(i, date) =>
    if bool_decide (weekday date ∈ [5; 6])
    then plt.ax (axvspan date date
                   [("color", VStr "gray"); ("alpha", VNum (2 # 25));
                    ("zorder", VInt 0)])
    else mret tt);;
  plt.ax (plot (g_dates g) (g_ideal_remaining g) None
            [("color", VStr "#1f77b4"); ("marker", VStr "o");
             ("markersize", VInt 10); ("linewidth", VInt 3);
             ("label", VStr "Ideal Burndown"); ("zorder", VInt 3)]);;
  plt.ax (plot (g_dates g) (map Exact.of_int actual_remaining) None
            [("color", VStr "#ff7f0e"); ("marker", VStr "o");
             ("markersize", VInt 10); ("linewidth", VInt 3);
             ("label", VStr "Actual Remaining Tasks"); ("zorder", VInt 4)]);;
  (* completion marker *)
  let completion_index := 11 in
  x ← lift (getitem (g_dates g) completion_index);
  y ← lift (getitem actual_remaining completion_index);
  plt.ax (plot [x] [Exact.of_int y] (Some "g*")
            [("markersize", VInt 25); ("markeredgecolor", VStr "darkgreen");
             ("markeredgewidth", VInt 2); ("label", VStr "Sprint Complete");
             ("zorder", VInt 5)]);;
  (* vertical line at the completion date *)
  x ← lift (getitem (g_dates g) completion_index);
  plt.ax (axvline x
            [("color", VStr "green"); ("linestyle", VStr "--");
             ("linewidth", VInt 2); ("alpha", VNum (3 # 5));
             ("zorder", VInt 2)]);;
  let status_text :=
    "✅ Sprint Completed" ++ newline ++ "100% Complete" ++ newline
    ++ "4/4 Tasks Done" in
  plt.ax (text (1 # 50) (49 # 50) status_text
            [("transform", VStr "ax.transAxes"); ("fontsize", VInt 12);
             ("verticalalignment", VStr "top");
             ("horizontalalignment", VStr "left");
             ("bbox.boxstyle", VStr "round,pad=0.8");
             ("bbox.facecolor", VStr "lightgreen");
             ("bbox.alpha", VNum (17 # 20));
             ("bbox.edgecolor", VStr "darkgreen");
             ("bbox.linewidth", VInt 2);
             ("fontfamily", VStr "monospace"); ("fontweight", VStr "bold");
             ("zorder", VInt 6)]);;
  plt.ax (set_xlabel "Date"
            [("fontsize", VInt 13); ("fontweight", VStr "bold")]);;
  plt.ax (set_ylabel "Remaining Tasks"
            [("fontsize", VInt 13); ("fontweight", VStr "bold")]);;
  let title :=
    "TrueSight Sprint 0 Burndown (04/02/2026 - 18/02/2026)" ++ newline
    ++ "Velocity: " ++ Exact.format_2f (g_velocity g)
    ++ " tasks/day | Completed: " ++ pretty completed_tasks ++ "/"
    ++ pretty total_tasks ++ " tasks (" ++ pretty completion_rate ++ "%)" in
  plt.ax (set_title title
            [("fontsize", VInt 16); ("fontweight", VStr "bold");
             ("pad", VInt 20)]);;
  plt.ax (styling "xaxis.set_major_formatter"
            [("DateFormatter", VStr "%d/%m/%Y")]);;
  plt.ax (styling "xaxis.set_major_locator"
            [("DayLocator.interval", VInt 1)]);;
  plt.ax (styling "xticks"
            [("rotation", VInt 45); ("ha", VStr "right");
             ("fontsize", VInt 9)]);;
  plt.ax (set_ylim (-1 # 2) 5);;
  plt.ax (set_yticks (range_from 0 6));;
  plt.ax (styling "yaxis.set_major_formatter"
            [("FuncFormatter", VStr "int")]);;
  plt.ax (styling "grid"
            [("visible", VBool true); ("linestyle", VStr "--");
             ("alpha", VNum (3 # 10)); ("color", VStr "lightgray");
             ("zorder", VInt 1)]);;
  plt.ax (styling "legend"
            [("loc", VStr "upper right"); ("fontsize", VInt 12);
             ("framealpha", VNum (19 # 20))]);;
  plt.ax (styling "tight_layout" []);;
  plt.savefig "docs/images/charts/sprint0_burndown_enhanced.png" (Some 300)
              None [("bbox_inches", VStr "tight"); ("facecolor", VStr "white")];;
  plt.savefig "docs/images/charts/sprint0_burndown_enhanced.pdf" None None
              [("bbox_inches", VStr "tight"); ("facecolor", VStr "white")];;
  plt.close;;
  print (newline ++ "✅ Enhanced burndown chart created:");;
  print "   📁 docs/images/charts/sprint0_burndown_enhanced.png (300 DPI)";;
  print "   📁 docs/images/charts/sprint0_burndown_enhanced.pdf".

(** Generate both the standard and the enhanced chart. *)
Definition main (g : globals) : Py unit :=
  print (str_repeat "=" 60);;
  print "TrueSight Sprint 0 Burndown Chart Generator";;
  print (str_repeat "=" 60);;
  print (newline ++ "Sprint Period: " ++ strftime_B_d_Y (g_sprint_start g)
         ++ " - " ++ strftime_B_d_Y (g_sprint_end g));;
  print ("Completion Date: " ++ strftime_B_d_Y (g_completion_date g)
         ++ " (3 days early)");;
  print ("Total Tasks: " ++ pretty total_tasks);;
  print ("Velocity: " ++ Exact.format_2f (g_velocity g) ++ " tasks/day");;
  print ("Completion Rate: " ++ pretty completion_rate ++ "%");;
  print (newline ++ "Generating charts..." ++ newline);;
  create_standard_burndown g;;
  create_enhanced_burndown g;;
  print (newline ++ str_repeat "=" 60);;
  print "✨ All charts generated successfully!";;
  print (str_repeat "=" 60).

(** The module run as a program. *)
Definition program : Py unit :=
  g ← lift load; main g.

End GenerateBurndownCharts.

(** ** The same arithmetic in IEEE binary64

    What the interpreter computes: [numpy.linspace] and the velocity with
    double-precision operations, each one rounded to nearest. *)

Module Binary64.

Definition of_int (z : Z) : float :=
  if z <? 0 then PrimFloat.opp (PrimFloat.of_uint63 (Uint63.of_Z (- z)))
  else PrimFloat.of_uint63 (Uint63.of_Z z).

Definition linspace (start stop : float) (num : Z) : Result (list float) :=
  if num <? 0 then Raise ValueError
  else
    let div := num - 1 in
    let delta := PrimFloat.sub stop start in
    let y := map of_int (arange num) in
    let y :=
      if 0 <? div then
        let step := PrimFloat.div delta (of_int div) in
        if PrimFloat.eqb step 0%float
        then map (fun v =>
                    PrimFloat.mul (PrimFloat.div v (of_int div)) delta) y
        else map (fun v => PrimFloat.mul v step) y
      else map (fun v => PrimFloat.mul v delta) y in
    let y := map (fun v => PrimFloat.add v start) y in
    let y := if 1 <? num then set_last y stop else y in
    Ok y.

Definition truediv (a b : Z) : Result float :=
  if b =? 0 then Raise ZeroDivisionError
  else Ok (PrimFloat.div (of_int a) (of_int b)).

(** The rational a finite double stands for. *)
Definition to_Q (f : float) : option Q :=
  match Prim2SF f with
  | S754_zero _ => Some 0%Q
  | S754_finite s m e =>
      Some (Qred ((if s then -1 else 1) * inject_Z (Z.pos m) * Qpower 2 e))
  | _ => None
  end.

(** [f] is a finite double within [eps] of [q]. *)
Definition within (eps : Q) (f : float) (q : Q) : Prop :=
  exists r : Q, to_Q f = Some r /\ (Qabs (r - q) <= eps)%Q.

Definition withinb (eps : Q) (f : float) (q : Q) : bool :=
  match to_Q f with
  | Some r => Qle_bool (Qabs (r - q)) eps
  | None => false
  end.

End Binary64.

(** ** Reading a figure and a run *)

(** The positions of the vertical lines of a figure. *)
Definition vlines (f : figure) : list datetime :=
  omap (fun c => match c with axvline x _ => Some x | _ => None end)
       (calls f).

(** The points drawn as markers alone: [scatter] calls, and [plot] calls
    given a format string (['g*'] in the scripts).  The circles the line
    plots put on their points ([marker='o']) belong to the lines and are
    read by [line_series]. *)
Definition marker_points (f : figure) : list (datetime * Q) :=
  concat (map (fun c => match c with
                        | scatter x y _ => zip x y
                        | plot x y (Some _) _ => zip x y
                        | _ => []
                        end) (calls f)).

(** The shaded spans of a figure. *)
Definition vspans (f : figure) : list (datetime * datetime) :=
  omap (fun c => match c with
                 | axvspan a b _ => Some (a, b)
                 | _ => None
                 end) (calls f).

(** The series drawn as lines, each with its label. *)
Definition kw_label (kw : kwargs) : string :=
  match list_find (fun p => String.eqb (fst p) "label" = true) kw with
  | Some (_, (_, VStr s)) => s
  | _ => ""
  end.

Definition line_series (f : figure)
  : list (string * list datetime * list Q) :=
  omap (fun c => match c with
                 | plot x y None kw => Some (kw_label kw, x, y)
                 | _ => None
                 end) (calls f).

Definition titles (f : figure) : list string :=
  omap (fun c => match c with set_title s _ => Some s | _ => None end)
       (calls f).

(** The files a list of events writes: path, format, resolution, and the
    figure saved. *)
Definition saves (es : list event)
  : list (string * string * Z * figure) :=
  omap (fun e => match e with
                 | SaveFile path format dpi _ content =>
                     Some (path, format, dpi, content)
                 | Print _ => None
                 end) es.

Definition printed (es : list event) : list string :=
  omap (fun e => match e with
                 | Print line => Some line
                 | SaveFile _ _ _ _ _ => None
                 end) es.

(** The events of a script that runs to its end (none if it raises). *)
Definition events_of (script : Py unit) : list event :=
  match run script with
  | Ok es => es
  | Raise _ => []
  end.

(** The images a list of events leaves behind, in the order written,
    stamped from the clock [clk] starting at reading [t]. *)
Fixpoint os_writes (clk : nat -> Z) (t : nat) (es : list event)
  : list (string * image) :=
  match es with
  | [] => []
  | Print _ :: es' => os_writes clk t es'
  | SaveFile path format dpi kw content :: es' =>
      (path, {| img_format := format; img_dpi := dpi; img_kw := kw;
                img_content := content; img_created := clk t |})
      :: os_writes clk (S t) es'
  end.

(** The last image written to [p] among [l], if any. *)
Fixpoint last_write (p : string) (l : list (string * image))
  : option image :=
  match l with
  | [] => None
  | (q, i) :: l' =>
      match last_write p l' with
      | Some j => Some j
      | None => if String.eqb q p then Some i else None
      end
  end.

(** ** The properties of the data model *)

(** A day of February 2026. *)
Definition feb (d : Z) : datetime := mk_datetime 2026 2 d.

(** The fifteen days of the sprint. *)
Definition sprint_dates : list datetime := map feb (range_from 4 15).

Definition strictly_increasing (ds : list datetime) : Prop :=
  StronglySorted (fun a b => ltb a b = true) ds.

Definition non_increasing (l : list Z) : Prop :=
  StronglySorted (fun a b => b <= a) l.

Definition non_negative (l : list Z) : Prop := Forall (fun x => 0 <= x) l.

(** One calendar day after the other. *)
Definition contiguous (ds : list datetime) : Prop :=
  exists d0 : Z, map toordinal ds = range_from d0 (length ds).

(** [i] is the first position of [l] holding zero. *)
Definition first_zero_at (l : list Z) (i : nat) : Prop :=
  l !! i = Some 0 /\ forall j x, (j < i)%nat -> l !! j = Some x -> x <> 0.


(** The directory and the files of the charts. *)
Definition charts_dir : string := "docs/images/charts".

Definition burndown_png : string := "docs/images/charts/sprint0_burndown.png".
Definition burndown_pdf : string := "docs/images/charts/sprint0_burndown.pdf".
Definition enhanced_png : string :=
  "docs/images/charts/sprint0_burndown_enhanced.png".
Definition enhanced_pdf : string :=
  "docs/images/charts/sprint0_burndown_enhanced.pdf".
Definition velocity_png : string := "docs/images/charts/velocity_sprint0.png".
Definition velocity_pdf : string := "docs/images/charts/velocity_sprint0.pdf".

(** Every path of [paths] holds a chart in the format its name announces,
    a PNG at 300 dots per inch. *)
Definition charts_at (paths : list string) (w : world) : Prop :=
  Forall (fun p => exists i, files w !! p = Some i
                             /\ img_format i = plt.extension p
                             /\ (img_format i = "png" -> img_dpi i = 300))
         paths.

(** No file outside [paths] was touched between [w] and [w']. *)
Definition only_wrote (paths : list string) (w w' : world) : Prop :=
  forall p, p ∉ paths -> files w' !! p = files w !! p.

(** A world with the charts directory and nothing in it. *)
Definition empty_world : world :=
  {| files := ∅; dirs := {[ charts_dir ]}; console := [];
     clock := fun n => Z.of_nat n; ticks := 0 |}.

(** Putting an image at its path. *)
Definition put (m : gmap string image) (pi : string * image)
  : gmap string image := <[pi.1 := pi.2]> m.


(** ** More of the environment *)

(** [os_exec], keeping the world reached when an event fails: what is on
    disk and on the console when the exception leaves the script. *)
Fixpoint os_exec_until (w : world) (es : list event) : world * option exn :=
  match es with
  | [] => (w, None)
  | e :: es' =>
      match os_step w e with
      | Ok w' => os_exec_until w' es'
      | Raise x => (w, Some x)
      end
  end.

(** The lines printed before the first file is saved. *)
Fixpoint printed_before_save (es : list event) : list string :=
  match es with
  | Print line :: es' => line :: printed_before_save es'
  | _ => []
  end.


(** A world without the charts directory. *)
Definition bare_world : world :=
  {| files := ∅; dirs := {[ "docs" ]}; console := [];
     clock := fun n => Z.of_nat n; ticks := 0 |}.

(** The values [generate_burndown_charts.py] holds once loaded. *)
Definition sprint_globals : GenerateBurndownCharts.globals :=
  {| GenerateBurndownCharts.g_dates := sprint_dates;
     GenerateBurndownCharts.g_ideal_remaining :=
       [4; 26 # 7; 24 # 7; 22 # 7; 20 # 7; 18 # 7; 16 # 7; 2; 12 # 7;
        10 # 7; 8 # 7; 6 # 7; 4 # 7; 2 # 7; 0]%Q;
     GenerateBurndownCharts.g_sprint_start := feb 4;
     GenerateBurndownCharts.g_sprint_end := feb 18;
     GenerateBurndownCharts.g_completion_date := feb 15;
     GenerateBurndownCharts.g_sprint_days := 15;
     GenerateBurndownCharts.g_velocity := (4 # 15)%Q |}.

(** The options every [savefig] of the scripts passes. *)
Definition tight_on_white : kwargs :=
  [("bbox_inches", VStr "tight"); ("facecolor", VStr "white")].

(** The test of the shading loop: Saturday or Sunday. *)
Definition weekend (d : datetime) : Prop := weekday d ∈ [5; 6].

#[global] Instance weekend_dec (d : datetime) : Decision (weekend d).
Proof. unfold weekend. apply _. Defined.

(** ** The doubles of the two scripts

    The module-level values the interpreter holds as doubles: the ideal
    line of each script and the velocity. *)

Module Doubles.

(** [numpy.diff] on doubles: each element minus the one before it. *)
Fixpoint diff (l : list float) : list float :=
  match l with
  | x :: (y :: _) as l' => PrimFloat.sub y x :: diff l'
  | _ => []
  end.

(** The rationals a list of finite doubles stands for. *)
Definition exact (l : list float) : option (list Q) :=
  mapM Binary64.to_Q l.

(** [ideal_burndown = np.linspace(4, 0, len(dates))] *)
Definition ideal_burndown : Result (list float) :=
  ds ← GenerateBurndown.dates; Binary64.linspace 4 0 (len ds).

(** [ideal_remaining = np.linspace(4, 0, len(dates))] *)
Definition ideal_remaining : Result (list float) :=
  ds ← GenerateBurndownCharts.dates; Binary64.linspace 4 0 (len ds).

(** [velocity = total_tasks / sprint_days] *)
Definition velocity : Result float :=
  d ← GenerateBurndownCharts.sprint_days;
  Binary64.truediv GenerateBurndownCharts.total_tasks d.

End Doubles.

(** [x] and [y] differ by [eps] at most. *)
Definition close_to (eps x y : Q) : Prop := (Qabs (x - y) <= eps)%Q.

Definition close_tob (eps x y : Q) : bool := Qle_bool (Qabs (x - y)) eps.



(** ** What a chart shows

    A drawing call without its cosmetic parameters (colours, widths,
    labels, z-order): the data it puts on the axes.  Titles, axis labels,
    texts and styling calls put none. *)

Inductive drawn : Type :=
| Line (x : list datetime) (y : list Q)
| Markers (x : list datetime) (y : list Q)
| VLine (x : datetime)
| VSpan (xmin xmax : datetime)
| Bars (x : list string) (height : list Z).

Definition data_of_call (c : call) : option drawn :=
  match c with
  | plot x y None _ => Some (Line x y)
  | plot x y (Some _) _ => Some (Markers x y)
  | scatter x y _ => Some (Markers x y)
  | axvline x _ => Some (VLine x)
  | axvspan a b _ => Some (VSpan a b)
  | bar x h _ => Some (Bars x h)
  | _ => None
  end.

Definition chart_data (f : figure) : list drawn :=
  omap data_of_call (calls f).

(** What a run leaves, up to cosmetic parameters: the files written, in
    order, each with its format and the data of its chart.  Resolution,
    size, style, titles and keyword arguments are left out. *)
Definition outputs (es : list event) : list (string * string * list drawn) :=
  map (fun '(p, format, _, fig) => (p, format, chart_data fig)) (saves es).

Definition equivalent_up_to_cosmetics (es1 es2 : list event) : Prop :=
  outputs es1 = outputs es2.

(** The width of a span in days: from [xmin] to [xmax]. *)
Definition span_days (sp : datetime * datetime) : Z :=
  sub_days sp.2 sp.1.

(** A span covers the day [d] when it reaches from the midnight that
    begins it to the one that ends it (one unit of the date axis is one
    day). *)
Definition covers_day (sp : datetime * datetime) (d : datetime) : Prop :=
  toordinal sp.1 <= toordinal d /\ toordinal d + 1 <= toordinal sp.2.

(** The lines of text a console shows for the strings printed: [print]
    ends each string with a line break, and a string may hold more. *)
Fixpoint line_breaks (s : string) : nat :=
  match s with
  | EmptyString => 0
  | String c s' =>
      ((if Ascii.eqb c (ascii_of_nat 10) then 1 else 0) + line_breaks s')%nat
  end.

Definition console_lines (out : list string) : nat :=
  foldr (fun s n => (S (line_breaks s) + n)%nat) 0%nat out.




(** * Properties *)

(** ** Evaluating the module-level data *)

Lemma burndown_dates_parsed : GenerateBurndown.dates = Ok sprint_dates.
Proof. reflexivity. Qed.

Lemma charts_dates_parsed : GenerateBurndownCharts.dates = Ok sprint_dates.
Proof. reflexivity. Qed.

Lemma charts_load_ok :
  GenerateBurndownCharts.load
  = Ok {| GenerateBurndownCharts.g_dates := sprint_dates;
          GenerateBurndownCharts.g_ideal_remaining :=
            [4; 26 # 7; 24 # 7; 22 # 7; 20 # 7; 18 # 7; 16 # 7; 2; 12 # 7;
             10 # 7; 8 # 7; 6 # 7; 4 # 7; 2 # 7; 0]%Q;
          GenerateBurndownCharts.g_sprint_start := feb 4;
          GenerateBurndownCharts.g_sprint_end := feb 18;
          GenerateBurndownCharts.g_completion_date := feb 15;
          GenerateBurndownCharts.g_sprint_days := 15;
          GenerateBurndownCharts.g_velocity := (4 # 15)%Q |}.
Proof. vm_compute. reflexivity. Qed.

Lemma withinb_within (eps : Q) (f : float) (q : Q) :
  Binary64.withinb eps f q = true -> Binary64.within eps f q.
Proof.
  unfold Binary64.withinb, Binary64.within.
  destruct (Binary64.to_Q f) as [r|]; [|discriminate].
  intros H. exists r. split; [reflexivity|]. now apply Qle_bool_iff.
Qed.

(** ** The ideal line of the sprint *)

Lemma close_tob_close_to (eps x y : Q) :
  close_tob eps x y = true -> close_to eps x y.
Proof. apply Qle_bool_iff. Qed.

(** C1, as the specification words it, fails on the doubles the scripts
    compute: their consecutive differences are not all the double -4/14,
    and the values they stand for are not evenly spaced, neither by -4/14
    nor by any other amount. *)
Lemma ideal_doubles_are_not_evenly_spaced :
  exists (l : list float) (rs : list Q),
    Doubles.ideal_burndown = Ok l
    /\ Doubles.ideal_remaining = Ok l
    /\ Doubles.exact l = Some rs
    /\ ~ Forall (fun d => PrimFloat.eqb d (-4 / 14)%float = true)
                (Doubles.diff l)
    /\ ~ Forall (fun d => d == -4 # 14)%Q (diffs rs)
    /\ ~ (exists a : Q, Forall (fun d => d == a)%Q (diffs rs)).
Proof.
  eexists. eexists.
  split; [vm_compute; reflexivity|].
  split; [vm_compute; reflexivity|].
  split; [vm_compute; reflexivity|].
  split; [|split].
  - intros H. apply Forall_cons in H as [H _]. revert H.
    vm_compute. discriminate.
  - intros H. apply Forall_cons in H as [H _]. revert H.
    vm_compute. discriminate.
  - intros (a & H).
    apply Forall_cons in H as [H1 H]. apply Forall_cons in H as [_ H].
    apply Forall_cons in H as [H3 _].
    rewrite <- H3 in H1. revert H1. vm_compute. discriminate.
Qed.

(** C1, amended.  For the fixed dataset (15 dates, remaining-task counts
    starting at 4) the ideal-progress series of both scripts is the same
    list of 15 doubles; it starts at 4.0 and ends at 0.0 exactly, and it is
    evenly spaced up to rounding: every two consecutive points differ by
    -4/14 within 2^-51, whether the difference is taken exactly or in
    doubles as [numpy.diff] does.  In exact arithmetic the series is
    4 - 4i/14: 15 points from 4 to 0 with all differences -4/14, and each
    double lies within 2^-51 of its exact point. *)
Theorem ideal_series_is_15_steps_from_4_to_0_even_up_to_rounding :
  exists (ideal64 : list float) (values ideal : list Q),
    Doubles.ideal_burndown = Ok ideal64
    /\ Doubles.ideal_remaining = Ok ideal64
    /\ len sprint_dates = 15
    /\ head GenerateBurndown.actual_remaining = Some 4
    /\ head GenerateBurndownCharts.actual_remaining = Some 4
    /\ len ideal64 = 15
    /\ head ideal64 = Some 4%float
    /\ last ideal64 = Some 0%float
    /\ Doubles.exact ideal64 = Some values
    /\ head values = Some 4%Q
    /\ last values = Some 0%Q
    /\ Forall (fun d => close_to (1 # 2 ^ 51) d (-4 # 14)) (diffs values)
    /\ Forall (fun d => Binary64.within (1 # 2 ^ 51) d (-4 # 14))
              (Doubles.diff ideal64)
    /\ GenerateBurndown.ideal_burndown = Ok ideal
    /\ GenerateBurndownCharts.ideal_remaining = Ok ideal
    /\ len ideal = 15
    /\ head ideal = Some 4%Q
    /\ last ideal = Some 0%Q
    /\ Forall (fun d => d == -4 # 14)%Q (diffs ideal)
    /\ Forall2 (close_to (1 # 2 ^ 51)) values ideal.
Proof.
  eexists. eexists.
  exists [4; 26 # 7; 24 # 7; 22 # 7; 20 # 7; 18 # 7; 16 # 7; 2; 12 # 7;
          10 # 7; 8 # 7; 6 # 7; 4 # 7; 2 # 7; 0]%Q.
  split; [vm_compute; reflexivity|].
  split; [vm_compute; reflexivity|].
  do 6 (split; [reflexivity|]).
  split; [vm_compute; reflexivity|].
  do 2 (split; [reflexivity|]).
  split; [repeat constructor; apply close_tob_close_to; vm_compute;
          reflexivity|].
  split; [repeat constructor; apply withinb_within; vm_compute;
          reflexivity|].
  do 5 (split; [reflexivity|]).
  split; [repeat constructor|].
  repeat constructor; apply close_tob_close_to; vm_compute; reflexivity.
Qed.

(** ** The sprint record *)

(** C3. The hardcoded sprint record of both scripts satisfies the invariant
    of the data model: the dates are strictly increasing (one calendar day
    after the other), and the actual-remaining counts are the sequence
    4,3,3,3,3,3,2,2,1,1,1,0,0,0,0, non-negative and non-increasing. *)
Theorem sprint_record_invariant :
  GenerateBurndown.dates = Ok sprint_dates
  /\ GenerateBurndownCharts.dates = Ok sprint_dates
  /\ strictly_increasing sprint_dates
  /\ contiguous sprint_dates
  /\ GenerateBurndown.actual_remaining
     = [4; 3; 3; 3; 3; 3; 2; 2; 1; 1; 1; 0; 0; 0; 0]
  /\ GenerateBurndownCharts.actual_remaining
     = [4; 3; 3; 3; 3; 3; 2; 2; 1; 1; 1; 0; 0; 0; 0]
  /\ non_negative GenerateBurndownCharts.actual_remaining
  /\ non_increasing GenerateBurndownCharts.actual_remaining
  /\ len GenerateBurndownCharts.actual_remaining = len sprint_dates.
Proof.
  repeat (split; [reflexivity|]).
  split; [|split; [|repeat (split; [reflexivity|])]].
  - unfold strictly_increasing, sprint_dates. simpl.
    repeat (apply SSorted_cons; [|repeat constructor]).
    apply SSorted_nil.
  - exists 739651. reflexivity.
  - split; [|split; [|reflexivity]].
    + unfold non_negative, GenerateBurndownCharts.actual_remaining.
      repeat constructor; lia.
    + unfold non_increasing, GenerateBurndownCharts.actual_remaining.
      repeat (apply SSorted_cons; [|repeat constructor; lia]).
      apply SSorted_nil.
Qed.

(** ** The completion marker *)

Lemma first_zero_of_the_counts :
  first_zero_at [4; 3; 3; 3; 3; 3; 2; 2; 1; 1; 1; 0; 0; 0; 0] 11.
Proof.
  split; [reflexivity|].
  intros j x Hj Hx.
  do 11 (destruct j as [|j]; [injection Hx as <-; lia|]).
  lia.
Qed.

(** C4. The first index at which the actual-remaining count is 0 is index
    11, the 12th date, 2026-02-15; the burndown chart of
    [generate_burndown.py] and the enhanced chart of
    [generate_burndown_charts.py] both put their one vertical line and
    their one completion marker at the date of index 11, at height 0. *)
Theorem completion_marked_at_index_11 :
  first_zero_at GenerateBurndown.actual_remaining 11
  /\ first_zero_at GenerateBurndownCharts.actual_remaining 11
  /\ index_of 0 GenerateBurndown.actual_remaining = Ok 11
  /\ index_of 0 GenerateBurndownCharts.actual_remaining = Ok 11
  /\ getitem sprint_dates 11 = Ok (feb 15)
  /\ GenerateBurndown.completion_date = Ok (feb 15)
  /\ GenerateBurndownCharts.completion_date = Ok (feb 15)
  /\ (exists es fig,
        run GenerateBurndown.create_sprint0_burndown = Ok es
        /\ saves es = [(burndown_png, "png", 300, fig);
                       (burndown_pdf, "pdf", 150, fig)]
        /\ vlines fig = [feb 15]
        /\ marker_points fig = [(feb 15, 0%Q)])
  /\ (exists g es fig,
        GenerateBurndownCharts.load = Ok g
        /\ run (GenerateBurndownCharts.create_enhanced_burndown g) = Ok es
        /\ saves es = [(enhanced_png, "png", 300, fig);
                       (enhanced_pdf, "pdf", 300, fig)]
        /\ vlines fig = [feb 15]
        /\ marker_points fig = [(feb 15, 0%Q)]).
Proof.
  split; [exact first_zero_of_the_counts|].
  split; [exact first_zero_of_the_counts|].
  repeat (split; [reflexivity|]).
  split.
  - eexists. eexists. split; [vm_compute; reflexivity|].
    split; [vm_compute; reflexivity|].
    split; vm_compute; reflexivity.
  - eexists. eexists. eexists. split; [exact charts_load_ok|].
    split; [vm_compute; reflexivity|].
    split; [vm_compute; reflexivity|].
    split; vm_compute; reflexivity.
Qed.

(** ** Velocity and completion rate *)

(** C5, as the specification words it, fails on the double the script
    computes: the velocity is 4803839602528529 / 2^54, which is not 4/15. *)
Lemma velocity_is_not_exactly_4_over_15 :
  exists (v64 : float) (r : Q),
    Doubles.velocity = Ok v64
    /\ Binary64.to_Q v64 = Some r
    /\ r = (4803839602528529 # 2 ^ 54)%Q
    /\ ~ (r == 4 # 15)%Q.
Proof.
  eexists. eexists. split; [vm_compute; reflexivity|].
  split; [vm_compute; reflexivity|].
  split; [vm_compute; reflexivity|]. vm_compute. discriminate.
Qed.

(** C5, amended.  The velocity is the total number of tasks divided by the
    number of days the sprint spans, the divisor being the last date minus
    the first in days, plus 1: 15 for this dataset.  For 4 tasks the
    quotient is computed in doubles: it is the double nearest to 4/15,
    4803839602528529 / 2^54, within 2^-56 of 4/15 (the doubles next to it,
    2^-54 away, are not), and the format [.2f] shows it as 0.27, as it
    would show 4/15 itself, in the title of the enhanced chart and in the
    summary printed. *)
Theorem velocity_is_the_double_nearest_4_over_15 :
  exists s e : datetime,
    GenerateBurndownCharts.sprint_start = Ok s
    /\ GenerateBurndownCharts.sprint_end = Ok e
    /\ head sprint_dates = Some s
    /\ last sprint_dates = Some e
    /\ GenerateBurndownCharts.sprint_days = Ok (sub_days e s + 1)
    /\ sub_days e s + 1 = 15
    /\ GenerateBurndownCharts.total_tasks = 4
    /\ Doubles.velocity
       = Binary64.truediv GenerateBurndownCharts.total_tasks
                          (sub_days e s + 1)
    /\ (exists (v64 : float) (r : Q),
          Doubles.velocity = Ok v64
          /\ v64 = (4 / 15)%float
          /\ Binary64.to_Q v64 = Some r
          /\ r = (4803839602528529 # 2 ^ 54)%Q
          /\ close_to (1 # 2 ^ 56) r (4 # 15)
          /\ ~ close_to (1 # 2 ^ 56) (r - (1 # 2 ^ 54)) (4 # 15)
          /\ ~ close_to (1 # 2 ^ 56) (r + (1 # 2 ^ 54)) (4 # 15)
          /\ Exact.format_2f r = "0.27")
    /\ Exact.format_2f (4 # 15) = "0.27"
    /\ (exists g es fig,
          GenerateBurndownCharts.load = Ok g
          /\ run (GenerateBurndownCharts.main g) = Ok es
          /\ In "Velocity: 0.27 tasks/day" (printed es)
          /\ In (enhanced_png, "png", 300, fig) (saves es)
          /\ titles fig
             = ["TrueSight Sprint 0 Burndown (04/02/2026 - 18/02/2026)"
                ++ newline
                ++ "Velocity: 0.27 tasks/day | Completed: 4/4 tasks (100%)"]).
Proof.
  exists (feb 4), (feb 18).
  do 8 (split; [reflexivity|]).
  split.
  - eexists. eexists. split; [vm_compute; reflexivity|].
    split; [vm_compute; reflexivity|].
    split; [vm_compute; reflexivity|].
    split; [vm_compute; reflexivity|].
    split; [apply close_tob_close_to; vm_compute; reflexivity|].
    split; [vm_compute; intros H; apply H; reflexivity|].
    split; [vm_compute; intros H; apply H; reflexivity|].
    vm_compute. reflexivity.
  - split; [reflexivity|].
    eexists. eexists. eexists. split; [exact charts_load_ok|].
    split; [vm_compute; reflexivity|].
    split; [vm_compute; tauto|].
    split; [vm_compute; tauto|].
    vm_compute. reflexivity.
Qed.

(** C6. The completion rate reported equals completed tasks divided by
    total tasks, times 100: with 4 of 4 tasks completed the rate is 100,
    and 100% is what the titles of the charts and the printed summary
    show. *)
Theorem completion_rate_is_100_percent :
  GenerateBurndownCharts.completed_tasks = 4
  /\ GenerateBurndownCharts.total_tasks = 4
  /\ GenerateBurndownCharts.completion_rate = 100
  /\ (Exact.of_int GenerateBurndownCharts.completion_rate
      == Exact.of_int GenerateBurndownCharts.completed_tasks
         / Exact.of_int GenerateBurndownCharts.total_tasks * 100)%Q
  /\ (exists g es fig,
        GenerateBurndownCharts.load = Ok g
        /\ run (GenerateBurndownCharts.main g) = Ok es
        /\ In "Completion Rate: 100%" (printed es)
        /\ In (enhanced_png, "png", 300, fig) (saves es)
        /\ titles fig
           = ["TrueSight Sprint 0 Burndown (04/02/2026 - 18/02/2026)"
              ++ newline
              ++ "Velocity: 0.27 tasks/day | Completed: 4/4 tasks (100%)"])
  /\ (exists es fig,
        run GenerateBurndown.create_sprint0_burndown = Ok es
        /\ In (burndown_png, "png", 300, fig) (saves es)
        /\ titles fig
           = ["TrueSight Sprint 0 Burndown (04/02/2026 - 18/02/2026)"
              ++ newline
              ++ "Completed: 4/4 tasks (100%) | Finished 3 days early"]).
Proof.
  repeat (split; [reflexivity|]).
  split.
  - eexists. eexists. eexists. split; [exact charts_load_ok|].
    split; [vm_compute; reflexivity|].
    split; [vm_compute; tauto|].
    split; [vm_compute; tauto|].
    vm_compute. reflexivity.
  - eexists. eexists.
    split; [vm_compute; reflexivity|].
    split; [vm_compute; tauto|].
    vm_compute. reflexivity.
Qed.

(** ** The two scripts side by side *)

(** C9, as the specification words it, fails: the two scripts are not
    equivalent up to cosmetic parameters.  The files they write are not the
    same, and the chart both write first, [sprint0_burndown.png], does not
    hold the same data. *)
Lemma the_two_scripts_are_not_equivalent :
  exists es1 es2 : list event,
    run GenerateBurndown.main = Ok es1
    /\ run GenerateBurndownCharts.program = Ok es2
    /\ ~ equivalent_up_to_cosmetics es1 es2
    /\ map (fun o => o.1.1) (outputs es1) <> map (fun o => o.1.1) (outputs es2)
    /\ head (outputs es1) <> head (outputs es2).
Proof.
  eexists. eexists.
  split; [vm_compute; reflexivity|].
  split; [vm_compute; reflexivity|].
  assert (H1 : forall a b : list (string * string * list drawn),
             head a <> head b -> a <> b)
    by (intros a b H ->; apply H; reflexivity).
  assert (Hh : head (outputs (events_of GenerateBurndown.main))
               <> head (outputs (events_of GenerateBurndownCharts.program))).
  { vm_compute. discriminate. }
  split; [|split].
  - unfold equivalent_up_to_cosmetics. apply H1. exact Hh.
  - vm_compute. discriminate.
  - exact Hh.
Qed.

(** C9, amended.  The two scripts embed the same 15 dates and the same
    actual-remaining counts, derive the same ideal series ([linspace] from
    4 to 0 over 15 points), take the completion date at the same index 11,
    and write the standard burndown chart to the same two paths, with the
    same two labelled series.  They are not equivalent beyond that: on
    this chart [generate_burndown.py] also draws the completion line and
    the completion marker at 2026-02-15, and saves the PDF at 150 DPI where
    [generate_burndown_charts.py] saves it at 300; and each script writes a
    second chart the other does not, the velocity chart and the enhanced
    burndown chart. *)
Theorem the_two_scripts_agree_on_data_not_on_charts :
  GenerateBurndown.dates_str = GenerateBurndownCharts.dates_str
  /\ len GenerateBurndown.dates_str = 15
  /\ GenerateBurndown.dates = GenerateBurndownCharts.dates
  /\ GenerateBurndown.actual_remaining
     = GenerateBurndownCharts.actual_remaining
  /\ GenerateBurndown.ideal_burndown = linspace 4 0 15
  /\ GenerateBurndownCharts.ideal_remaining = linspace 4 0 15
  /\ Doubles.ideal_burndown = Doubles.ideal_remaining
  /\ GenerateBurndown.completion_date = getitem sprint_dates 11
  /\ GenerateBurndownCharts.completion_date = getitem sprint_dates 11
  /\ (exists g es1 es2 fig1 fig2,
        GenerateBurndownCharts.load = Ok g
        /\ run GenerateBurndown.create_sprint0_burndown = Ok es1
        /\ run (GenerateBurndownCharts.create_standard_burndown g) = Ok es2
        /\ written_paths es1 = [burndown_png; burndown_pdf]
        /\ written_paths es2 = [burndown_png; burndown_pdf]
        /\ saves es1 = [(burndown_png, "png", 300, fig1);
                        (burndown_pdf, "pdf", 150, fig1)]
        /\ saves es2 = [(burndown_png, "png", 300, fig2);
                        (burndown_pdf, "pdf", 300, fig2)]
        /\ line_series fig1 = line_series fig2
        /\ map fst (line_series fig1)
           = [("Ideal Burndown", sprint_dates);
              ("Actual Remaining Tasks", sprint_dates)]
        /\ chart_data fig2
           = [Line sprint_dates (GenerateBurndownCharts.g_ideal_remaining g);
              Line sprint_dates
                   (map Exact.of_int GenerateBurndownCharts.actual_remaining)]
        /\ chart_data fig1
           = (chart_data fig2
              ++ [VLine (feb 15); Markers [feb 15] [0%Q]])%list)
  /\ (exists es1 es2,
        run GenerateBurndown.main = Ok es1
        /\ run GenerateBurndownCharts.program = Ok es2
        /\ written_paths es1
           = [burndown_png; burndown_pdf; velocity_png; velocity_pdf]
        /\ written_paths es2
           = [burndown_png; burndown_pdf; enhanced_png; enhanced_pdf]
        /\ ~ equivalent_up_to_cosmetics es1 es2).
Proof.
  do 9 (split; [reflexivity|]).
  split.
  - eexists. eexists. eexists. eexists. eexists.
    split; [exact charts_load_ok|].
    split; [vm_compute; reflexivity|].
    split; [vm_compute; reflexivity|].
    do 7 (split; [vm_compute; reflexivity|]).
    vm_compute. reflexivity.
  - eexists. eexists.
    split; [vm_compute; reflexivity|].
    split; [vm_compute; reflexivity|].
    do 2 (split; [vm_compute; reflexivity|]).
    unfold equivalent_up_to_cosmetics. intros H.
    apply (f_equal (map (fun o : string * string * list drawn => o.1.1))) in H.
    revert H. vm_compute. discriminate.
Qed.

(** ** Weekend shading *)

(** C10, at the dataset of the script.  In the enhanced burndown chart
    [axvspan] is called at exactly the dates of the sequence whose weekday
    is Saturday (5) or Sunday (6): 2026-02-07, 2026-02-08, 2026-02-14 and
    2026-02-15, the completion date (index 11) being the last of them.
    But each call runs from the date to the same date: every span has
    width 0 and covers no day, so no weekend, and not the completion date,
    is shaded. *)
Theorem weekend_spans_have_no_width :
  exists g es fig,
    GenerateBurndownCharts.load = Ok g
    /\ run (GenerateBurndownCharts.create_enhanced_burndown g) = Ok es
    /\ saves es = [(enhanced_png, "png", 300, fig);
                   (enhanced_pdf, "pdf", 300, fig)]
    /\ vspans fig = [(feb 7, feb 7); (feb 8, feb 8);
                     (feb 14, feb 14); (feb 15, feb 15)]
    /\ map fst (vspans fig)
       = filter (fun d => weekday d ∈ [5; 6])
                (GenerateBurndownCharts.g_dates g)
    /\ map weekday [feb 7; feb 8; feb 14; feb 15] = [5; 6; 5; 6]
    /\ getitem (GenerateBurndownCharts.g_dates g) 11 = Ok (feb 15)
    /\ Forall (fun sp => span_days sp = 0) (vspans fig)
    /\ forall d : datetime, ~ Exists (fun sp => covers_day sp d) (vspans fig).
Proof.
  eexists. eexists. eexists.
  split; [exact charts_load_ok|].
  split; [vm_compute; reflexivity|].
  split; [vm_compute; reflexivity|].
  do 4 (split; [vm_compute; reflexivity|]).
  split; [repeat constructor|].
  intros d H.
  repeat (apply Exists_cons in H as [[H1 H2]|H]; [cbn in H1, H2; lia|]).
  inversion H.
Qed.

(** ** Events against the file system *)

Lemma written_paths_os_writes (clk : nat -> Z) (es : list event) :
  forall t, map fst (os_writes clk t es) = written_paths es.
Proof.
  induction es as [|[line|path format dpi kw content] es IH]; intros t.
  - reflexivity.
  - apply IH.
  - cbn. f_equal. apply IH.
Qed.

(** Events whose directories exist all succeed, and the world that results
    is the old one with the images put in and the lines printed. *)
Lemma os_exec_ok (es : list event) :
  forall w : world,
    Forall (fun p => dirname p ∈ dirs w) (written_paths es) ->
    os_exec w es
    = Ok {| files := foldl put (files w)
                           (os_writes (clock w) (ticks w) es);
            dirs := dirs w;
            console := (console w ++ printed es)%list;
            clock := clock w;
            ticks := (ticks w + length (written_paths es))%nat |}.
Proof.
  induction es as [|[line|path format dpi kw content] es IH]; intros w Hd.
  - destruct w. cbn. rewrite app_nil_r, Nat.add_0_r. reflexivity.
  - cbn. rewrite IH by exact Hd. cbn.
    rewrite <- app_assoc. reflexivity.
  - cbn in Hd. apply Forall_cons in Hd as [Hp Hd].
    cbn. destruct (decide (dirname path ∈ dirs w)) as [_|Hn]; [|done].
    rewrite IH by exact Hd. cbn.
    rewrite Nat.add_succ_r. reflexivity.
Qed.

(** A missing directory ends the run at the first file. *)
Lemma os_exec_missing_dir (w : world) (path format : string) (dpi : Z)
    (kw : kwargs) (content : figure) (es : list event) :
  dirname path ∉ dirs w ->
  os_exec w (SaveFile path format dpi kw content :: es)
  = Raise FileNotFoundError.
Proof.
  intros Hn. cbn. destruct (decide (dirname path ∈ dirs w)); done.
Qed.

Lemma lookup_foldl_put (l : list (string * image)) :
  forall (m : gmap string image) (p : string),
    foldl put m l !! p
    = match last_write p l with
      | Some i => Some i
      | None => m !! p
      end.
Proof.
  induction l as [|[q i] l IH]; intros m p.
  - reflexivity.
  - cbn. rewrite IH. destruct (last_write p l) as [j|]; [reflexivity|].
    unfold put. cbn. destruct (String.eqb_spec q p) as [->|Hne].
    + apply lookup_insert_eq.
    + apply lookup_insert_ne. exact Hne.
Qed.

Lemma last_write_None (p : string) (l : list (string * image)) :
  p ∉ map fst l -> last_write p l = None.
Proof.
  induction l as [|[q i] l IH]; intros Hp.
  - reflexivity.
  - cbn in *. apply not_elem_of_cons in Hp as [Hne Hp].
    rewrite IH by exact Hp.
    destruct (String.eqb_spec q p) as [->|_]; [done|reflexivity].
Qed.

Lemma last_write_Some (p : string) (l : list (string * image)) :
  p ∈ map fst l -> exists i, last_write p l = Some i /\ (p, i) ∈ l.
Proof.
  induction l as [|[q i] l IH]; intros Hp.
  - cbn in Hp. by apply elem_of_nil in Hp.
  - cbn. destruct (decide (p ∈ map fst l)) as [Hin|Hout].
    + destruct (IH Hin) as (j & -> & Hj). exists j. split; [reflexivity|].
      by apply list_elem_of_further.
    + rewrite (last_write_None _ _ Hout).
      cbn in Hp. apply elem_of_cons in Hp as [->|Hp]; [|done].
      rewrite String.eqb_refl. exists i. split; [reflexivity|].
      apply list_elem_of_here.
Qed.

Lemma os_writes_format (clk : nat -> Z) (es : list event) :
  forall (t : nat) (p : string) (i : image),
    (p, i) ∈ os_writes clk t es ->
    exists t', (p, img_format i, img_dpi i, img_content i) ∈ saves es
               /\ img_created i = clk t'.
Proof.
  induction es as [|[line|path format dpi kw content] es IH]; intros t p i Hi.
  - by apply elem_of_nil in Hi.
  - apply (IH t p i Hi).
  - cbn in Hi. apply elem_of_cons in Hi as [Heq|Hi].
    + injection Heq as -> ->. exists t. split; [apply list_elem_of_here|done].
    + destruct (IH _ _ _ Hi) as (t' & Hs & Ht). exists t'.
      split; [by apply list_elem_of_further|done].
Qed.

(** A script that runs to its end, executed where its directories exist. *)
Lemma execute_ok (script : Py unit) (es : list event) (w : world) :
  run script = Ok es ->
  Forall (fun p => dirname p ∈ dirs w) (written_paths es) ->
  exists w' : world,
    execute script w = Ok w'
    /\ (forall p, files w' !! p
                  = match last_write p (os_writes (clock w) (ticks w) es) with
                    | Some i => Some i
                    | None => files w !! p
                    end)
    /\ console w' = (console w ++ printed es)%list
    /\ dirs w' = dirs w.
Proof.
  intros Hrun Hd. unfold execute. rewrite Hrun, (os_exec_ok es w Hd).
  eexists. split; [reflexivity|]. cbn.
  split; [|split; reflexivity].
  intros p. apply lookup_foldl_put.
Qed.

Lemma os_exec_only_wrote (es : list event) :
  forall w w' : world,
    os_exec w es = Ok w' -> only_wrote (written_paths es) w w'.
Proof.
  induction es as [|[line|path format dpi kw content] es IH];
    intros w w' Hex p Hp.
  - injection Hex as <-. reflexivity.
  - cbn in Hex. rewrite (IH _ _ Hex p Hp). reflexivity.
  - cbn in Hex, Hp. apply not_elem_of_cons in Hp as [Hne Hp].
    destruct (decide (dirname path ∈ dirs w)); [|discriminate].
    rewrite (IH _ _ Hex p Hp). cbn. apply lookup_insert_ne. done.
Qed.

(** A run touches no file but those its events name. *)
Lemma execute_only_wrote (script : Py unit) (es : list event) (w w' : world) :
  run script = Ok es ->
  execute script w = Ok w' ->
  only_wrote (written_paths es) w w'.
Proof.
  intros Hrun Hex. unfold execute in Hex. rewrite Hrun in Hex.
  exact (os_exec_only_wrote es w w' Hex).
Qed.

(** What a run leaves at a path it writes is what the last [savefig] on
    that path saved. *)
Lemma execute_charts_at (script : Py unit) (es : list event) (w w' : world) :
  run script = Ok es ->
  execute script w = Ok w' ->
  Forall (fun '(p, format, dpi, _) =>
            format = plt.extension p /\ (format = "png" -> dpi = 300))
         (saves es) ->
  charts_at (written_paths es) w'.
Proof.
  intros Hrun Hex Hs.
  assert (Hd : Forall (fun p => dirname p ∈ dirs w) (written_paths es)).
  { unfold execute in Hex. rewrite Hrun in Hex. clear Hrun Hs.
    revert w Hex.
    induction es as [|[line|path format dpi kw content] es IH]; intros w Hex.
    - constructor.
    - cbn in *. exact (IH _ Hex).
    - cbn in *. destruct (decide (dirname path ∈ dirs w)); [|discriminate].
      constructor; [assumption|]. exact (IH _ Hex). }
  destruct (execute_ok script es w Hrun Hd) as (w0 & Hx & Hf & _).
  rewrite Hex in Hx. injection Hx as <-.
  apply Forall_forall. intros p Hp. rewrite Hf.
  destruct (last_write_Some p (os_writes (clock w) (ticks w) es))
    as (i & -> & Hi); [by rewrite written_paths_os_writes|].
  exists i. split; [reflexivity|].
  destruct (os_writes_format _ _ _ _ _ Hi) as (t' & Hin & _).
  rewrite Forall_forall in Hs. exact (Hs _ Hin).
Qed.

(** ** The files written *)

Lemma burndown_main_runs :
  exists es,
    run GenerateBurndown.main = Ok es
    /\ written_paths es
       = [burndown_png; burndown_pdf; velocity_png; velocity_pdf]
    /\ Forall (fun '(p, format, dpi, _) =>
                 format = plt.extension p /\ (format = "png" -> dpi = 300))
              (saves es).
Proof.
  eexists. split; [vm_compute; reflexivity|].
  split; [vm_compute; reflexivity|].
  repeat constructor; intros H; discriminate H.
Qed.

Lemma charts_program_runs :
  exists es,
    run GenerateBurndownCharts.program = Ok es
    /\ written_paths es
       = [burndown_png; burndown_pdf; enhanced_png; enhanced_pdf]
    /\ Forall (fun '(p, format, dpi, _) =>
                 format = plt.extension p /\ (format = "png" -> dpi = 300))
              (saves es).
Proof.
  eexists. split; [vm_compute; reflexivity|].
  split; [vm_compute; reflexivity|].
  repeat constructor; intros H; discriminate H.
Qed.

Lemma charts_dir_of_the_paths :
  Forall (fun p => dirname p = charts_dir)
         [burndown_png; burndown_pdf; enhanced_png; enhanced_pdf;
          velocity_png; velocity_pdf].
Proof. repeat constructor. Qed.

(** C7. Every chart is written as a pair of files, a PNG at 300 DPI and a
    PDF, at fixed relative paths under [docs/images/charts/], named
    [sprint0_burndown], [sprint0_burndown_enhanced] and
    [velocity_sprint0]: each chart function saves its figure twice, once
    in each format, and a run of either script, where that directory
    exists, ends with the charts at those paths and no other file
    touched. *)
Theorem charts_are_written_as_png_pdf_pairs
    (w : world) (Hdir : charts_dir ∈ dirs w) :
  (exists es fig,
     run GenerateBurndown.create_sprint0_burndown = Ok es
     /\ saves es = [(burndown_png, "png", 300, fig);
                    (burndown_pdf, "pdf", 150, fig)])
  /\ (exists es fig,
        run GenerateBurndown.create_velocity_chart = Ok es
        /\ saves es = [(velocity_png, "png", 300, fig);
                       (velocity_pdf, "pdf", 150, fig)])
  /\ (exists g es1 fig1 es2 fig2,
        GenerateBurndownCharts.load = Ok g
        /\ run (GenerateBurndownCharts.create_standard_burndown g) = Ok es1
        /\ saves es1 = [(burndown_png, "png", 300, fig1);
                        (burndown_pdf, "pdf", 300, fig1)]
        /\ run (GenerateBurndownCharts.create_enhanced_burndown g) = Ok es2
        /\ saves es2 = [(enhanced_png, "png", 300, fig2);
                        (enhanced_pdf, "pdf", 300, fig2)])
  /\ Forall (fun p => dirname p = charts_dir)
            [burndown_png; burndown_pdf; enhanced_png; enhanced_pdf;
             velocity_png; velocity_pdf]
  /\ (exists w' : world,
        execute GenerateBurndown.main w = Ok w'
        /\ charts_at [burndown_png; burndown_pdf; velocity_png; velocity_pdf]
                     w'
        /\ only_wrote [burndown_png; burndown_pdf; velocity_png;
                       velocity_pdf] w w')
  /\ (exists w' : world,
        execute GenerateBurndownCharts.program w = Ok w'
        /\ charts_at [burndown_png; burndown_pdf; enhanced_png; enhanced_pdf]
                     w'
        /\ only_wrote [burndown_png; burndown_pdf; enhanced_png;
                       enhanced_pdf] w w').
Proof.
  split; [eexists; eexists; split; vm_compute; reflexivity|].
  split; [eexists; eexists; split; vm_compute; reflexivity|].
  split.
  { eexists. eexists. eexists. eexists. eexists.
    split; [exact charts_load_ok|].
    repeat (split; [vm_compute; reflexivity|]). vm_compute. reflexivity. }
  split; [exact charts_dir_of_the_paths|].
  split.
  - destruct burndown_main_runs as (es & Hrun & Hp & Hs).
    assert (Hd : Forall (fun p => dirname p ∈ dirs w) (written_paths es))
      by (rewrite Hp; repeat constructor; exact Hdir).
    destruct (execute_ok _ es w Hrun Hd) as (w' & Hex & _).
    exists w'. split; [exact Hex|]. rewrite <- Hp. split.
    + exact (execute_charts_at _ es w w' Hrun Hex Hs).
    + exact (execute_only_wrote _ es w w' Hrun Hex).
  - destruct charts_program_runs as (es & Hrun & Hp & Hs).
    assert (Hd : Forall (fun p => dirname p ∈ dirs w) (written_paths es))
      by (rewrite Hp; repeat constructor; exact Hdir).
    destruct (execute_ok _ es w Hrun Hd) as (w' & Hex & _).
    exists w'. split; [exact Hex|]. rewrite <- Hp. split.
    + exact (execute_charts_at _ es w w' Hrun Hex Hs).
    + exact (execute_only_wrote _ es w w' Hrun Hex).
Qed.

Lemma charts_are_written_as_png_pdf_pairs_in_an_empty_world :
  charts_dir ∈ dirs empty_world
  /\ exists w' : world,
       execute GenerateBurndownCharts.program empty_world = Ok w'
       /\ charts_at [burndown_png; burndown_pdf; enhanced_png; enhanced_pdf]
                    w'.
Proof.
  assert (Hdir : charts_dir ∈ dirs empty_world)
    by (vm_compute; reflexivity).
  split; [exact Hdir|].
  destruct (charts_are_written_as_png_pdf_pairs empty_world Hdir)
    as (_ & _ & _ & _ & _ & w' & Hex & Hat & _).
  exists w'. split; [exact Hex | exact Hat].
Defined.

(** ** The failure mode *)

Lemma os_exec_first_dir_missing (es : list event) :
  forall (w : world) (p : string) (ps : list string),
    written_paths es = p :: ps ->
    dirname p ∉ dirs w ->
    os_exec w es = Raise FileNotFoundError.
Proof.
  induction es as [|[line|path format dpi kw content] es IH];
    intros w p ps Hp Hn.
  - discriminate Hp.
  - cbn. apply (IH _ p ps Hp). exact Hn.
  - cbn in Hp. injection Hp as -> _.
    apply os_exec_missing_dir. exact Hn.
Qed.

(** Without the charts directory either script ends with the exception of
    its first [savefig]. *)
Lemma missing_directory_aborts (w : world) :
  charts_dir ∉ dirs w ->
  execute GenerateBurndown.main w = Raise FileNotFoundError
  /\ execute GenerateBurndownCharts.program w = Raise FileNotFoundError.
Proof.
  intros Hn. split.
  - destruct burndown_main_runs as (es & Hrun & Hp & _).
    unfold execute. rewrite Hrun.
    exact (os_exec_first_dir_missing es w _ _ Hp Hn).
  - destruct charts_program_runs as (es & Hrun & Hp & _).
    unfold execute. rewrite Hrun.
    exact (os_exec_first_dir_missing es w _ _ Hp Hn).
Qed.

(** ** The ideal-series calculator in general *)

Section LinspaceToZero.

Local Open Scope Q_scope.








Variables (c n : Z).
Hypothesis Hn : (2 <= n)%Z.







End LinspaceToZero.


(** No sample: the empty array, not an error. *)
Lemma linspace_no_point (c : Z) : linspace (Exact.of_int c) 0 0 = Ok [].
Proof. reflexivity. Qed.

Lemma linspace_negative (c n : Z) :
  n < 0 -> linspace (Exact.of_int c) 0 n = Raise ValueError.
Proof.
  intros Hn. unfold linspace. destruct (Z.ltb_spec n 0); [reflexivity|lia].
Qed.


(** *** On doubles *)



Lemma binary64_linspace_negative (start stop : float) (n : Z) :
  n < 0 -> Binary64.linspace start stop n = Raise ValueError.
Proof.
  intros Hn. unfold Binary64.linspace.
  destruct (Z.ltb_spec n 0); [reflexivity|lia].
Qed.








(** ** Stepping through a script *)

Lemma Py_bind_modify {B : Type} (f : pystate -> pystate) (k : unit -> Py B)
    (s : pystate) :
  (modify f ≫= k) s = k tt (f s).
Proof. reflexivity. Qed.

Lemma Py_bind_ok {A B : Type} (m : Py A) (k : A -> Py B) (s s' : pystate)
    (a : A) :
  m s = Ok (a, s') -> (m ≫= k) s = k a s'.
Proof. intros H. unfold mbind, Py_bind. rewrite H. reflexivity. Qed.

(** The shading loop adds one span per date that passes the test, in the
    order of the dates, and nothing else. *)
Lemma shading_loop (kw : kwargs) (ds : list datetime) :
  forall (lo : Z) (s : pystate),
    py_for (zip (range_from lo (length ds)) ds)
      (fun '(i, date) =>
         if bool_decide (weekday date ∈ [5; 6])
         then plt.ax (axvspan date date kw)
         else mret tt) s
    = Ok (tt, {| style := style s;
                 current :=
                   match filter (fun d => weekday d ∈ [5; 6]) ds with
                   | [] => current s
                   | _ =>
                       Some {| figsize := figsize (plt.gcf s);
                               fig_dpi := fig_dpi (plt.gcf s);
                               fig_style := fig_style (plt.gcf s);
                               calls :=
                                 (calls (plt.gcf s)
                                  ++ map (fun d => axvspan d d kw)
                                       (filter (fun d => weekday d ∈ [5; 6])
                                               ds))%list |}
                   end;
                 events := events s |}).
Proof.
  induction ds as [|d ds IH]; intros lo s.
  - destruct s. reflexivity.
  - cbn [length range_from zip zip_with py_for].
    destruct (decide (weekday d ∈ [5; 6])) as [Hd|Hd].
    + rewrite (bool_decide_eq_true_2 _ Hd), (filter_cons_True (fun d => weekday d ∈ [5; 6]) d ds Hd).
      unfold plt.ax. rewrite Py_bind_modify, IH. cbn.
      destruct (filter _ ds) as [|d' l']; cbn.
      * reflexivity.
      * rewrite <- app_assoc. reflexivity.
    + rewrite (bool_decide_eq_false_2 _ Hd), (filter_cons_False (fun d => weekday d ∈ [5; 6]) d ds Hd).
      change ((mret tt ≫= fun _ => py_for (zip (range_from (lo + 1) (length ds)) ds)
        (fun '(i, date) =>
         if bool_decide (weekday date ∈ [5; 6])
         then plt.ax (axvspan date date kw)
         else mret tt)) s) with (py_for (zip (range_from (lo + 1) (length ds)) ds)
        (fun '(i, date) =>
         if bool_decide (weekday date ∈ [5; 6])
         then plt.ax (axvspan date date kw)
         else mret tt) s).
      apply IH.
Qed.

Lemma shading_loop_on_figure (kw : kwargs) (ds : list datetime)
    (s : pystate) (f : figure) :
  current s = Some f ->
  py_for (enumerate ds)
    (fun '(i, date) =>
       if bool_decide (weekday date ∈ [5; 6])
       then plt.ax (axvspan date date kw)
       else mret tt) s
  = Ok (tt, {| style := style s;
               current :=
                 Some {| figsize := figsize f; fig_dpi := fig_dpi f;
                         fig_style := fig_style f;
                         calls :=
                           (calls f
                            ++ map (fun d => axvspan d d kw)
                                 (filter weekend ds))%list
                      |};
               events := events s |}).
Proof.
  intros Hf. unfold enumerate. rewrite shading_loop.
  unfold plt.gcf. rewrite Hf. cbn [default].
  change (filter (fun d => weekday d ∈ [5; 6]) ds) with (filter weekend ds).
  destruct (filter weekend ds) as [|d l]; [|reflexivity].
  destruct f. cbn. rewrite app_nil_r. reflexivity.
Qed.

Lemma getitem_in_range {A : Type} (l : list A) (i : Z) :
  0 <= i < len l -> exists x, getitem l i = Ok x /\ l !! Z.to_nat i = Some x.
Proof.
  intros Hi. unfold getitem, len in *.
  destruct (Z.ltb_spec i 0) as [?|_]; [lia|].
  destruct (Z.ltb_spec i 0) as [?|_]; [lia|].
  destruct (lookup_lt_is_Some_2 l (Z.to_nat i)) as [x Hx]; [lia|].
  exists x. rewrite Hx. split; reflexivity.
Qed.

(** What the readers of a figure see of a run of spans. *)
Lemma spans_read (kw : kwargs) (l : list datetime) :
  vspans {| figsize := (0, 0)%Q; fig_dpi := 0; fig_style := "";
            calls := map (fun d => axvspan d d kw) l |}
  = map (fun d => (d, d)) l
  /\ omap (fun c => match c with axvline x _ => Some x | _ => None end)
          (map (fun d => axvspan d d kw) l) = []
  /\ concat (map (fun c => match c with
                           | scatter x y _ => zip x y
                           | plot x y (Some _) _ => zip x y
                           | _ => []
                           end) (map (fun d => axvspan d d kw) l)) = []
  /\ omap (fun c => match c with
                    | plot x y None kw => Some (kw_label kw, x, y)
                    | _ => None
                    end) (map (fun d => axvspan d d kw) l) = []
  /\ omap (fun c => match c with set_title s _ => Some s | _ => None end)
          (map (fun d => axvspan d d kw) l) = [].
Proof.
  unfold vspans. cbn [calls].
  induction l as [|d l (IH1 & IH2 & IH3 & IH4 & IH5)]; [repeat split|].
  cbn. rewrite IH1, IH2, IH3, IH4, IH5. repeat split.
Qed.

(** The lemmas below follow a chart function from a state [s] of the
    model, which is how [main] is stepped through: one function after
    the other, each from the state the one before left.  The properties
    that follow are stated of runs from a fresh interpreter. *)

(** Evaluating the script on the left of a goal [script s = result]: the
    left side is computed, the appends that wait on the earlier events are
    put back in their order, and the result is read off. *)
Ltac py_evaluate :=
  etransitivity; [vm_compute; reflexivity|];
  try fold (@app event); try fold (@app call);
  rewrite <- ?app_assoc; cbn [app]; reflexivity.

Lemma enhanced_chart_run (g : GenerateBurndownCharts.globals) :
  length (GenerateBurndownCharts.g_dates g) = 15%nat ->
  exists (d11 : datetime) (fig : figure) (a b c : string),
    GenerateBurndownCharts.g_dates g !! 11%nat = Some d11
    /\ (forall s : pystate,
          GenerateBurndownCharts.create_enhanced_burndown g s
          = Ok (tt, {| style := "seaborn-v0_8-darkgrid"; current := None;
                       events := (events s
                         ++ [SaveFile enhanced_png "png" 300 tight_on_white
                               fig;
                             SaveFile enhanced_pdf "pdf" 300 tight_on_white
                               fig;
                             Print a; Print b; Print c])%list |}))
    /\ figsize fig = (16, 9)%Q
    /\ fig_dpi fig = 300
    /\ vspans fig
       = map (fun d => (d, d))
             (filter weekend (GenerateBurndownCharts.g_dates g))
    /\ vlines fig = [d11]
    /\ marker_points fig = [(d11, 0%Q)]
    /\ line_series fig
       = [("Ideal Burndown", GenerateBurndownCharts.g_dates g,
           GenerateBurndownCharts.g_ideal_remaining g);
          ("Actual Remaining Tasks", GenerateBurndownCharts.g_dates g,
           map Exact.of_int GenerateBurndownCharts.actual_remaining)]
    /\ titles fig
       = ["TrueSight Sprint 0 Burndown (04/02/2026 - 18/02/2026)" ++ newline
          ++ "Velocity: "
          ++ Exact.format_2f (GenerateBurndownCharts.g_velocity g)
          ++ " tasks/day | Completed: 4/4 tasks (100%)"].
Proof.
  intros Hlen.
  destruct (getitem_in_range (GenerateBurndownCharts.g_dates g) 11)
    as (d11 & Hd11 & Hl11); [unfold len; lia|].
  assert (HL : exists L : list call,
             L = map (fun d => axvspan d d
                        [("color", VStr "gray"); ("alpha", VNum (2 # 25));
                         ("zorder", VInt 0)])
                     (filter weekend (GenerateBurndownCharts.g_dates g)))
    by (eexists; reflexivity).
  destruct HL as (L & HL).
  remember (GenerateBurndownCharts.g_dates g) as ds eqn:Hds.
  remember (GenerateBurndownCharts.g_ideal_remaining g) as ideal eqn:Hideal.
  remember (Exact.format_2f (GenerateBurndownCharts.g_velocity g))
    as vtxt eqn:Hv.
  exists d11. eexists. eexists. eexists. eexists.
  split; [exact Hl11|]. split.
  { intros [st0 cur es0]. cbn [events].
    unfold GenerateBurndownCharts.create_enhanced_burndown.
    rewrite <- Hds, <- Hideal, <- Hv, Hd11.
    change (getitem GenerateBurndownCharts.actual_remaining 11) with (Ok 0).
    match goal with
    | |- context [py_for ?l ?b ≫= ?k] => set (K := k)
    end.
    unfold plt.style_use, plt.subplots.
    rewrite !Py_bind_modify.
    erewrite Py_bind_ok; [|apply shading_loop_on_figure; reflexivity].
    subst K. cbv beta. rewrite <- HL.
    clear Hds Hideal Hv Hd11 Hlen HL Hl11.
    py_evaluate. }
  split; [reflexivity|]. split; [reflexivity|].
  destruct (spans_read
              [("color", VStr "gray"); ("alpha", VNum (2 # 25));
               ("zorder", VInt 0)] (filter weekend ds))
    as (H1 & H2 & H3 & H4 & H5).
  unfold vspans, vlines, marker_points, line_series, titles in *.
  cbn [calls] in *.
  rewrite map_app, concat_app, !omap_app, HL, H1, H2, H3, H4, H5.
  repeat split. cbn. rewrite app_nil_r. reflexivity.
Qed.

Lemma standard_chart_run (g : GenerateBurndownCharts.globals) :
  exists (fig : figure) (a b c : string),
    (forall s : pystate,
       GenerateBurndownCharts.create_standard_burndown g s
       = Ok (tt, {| style := "seaborn-v0_8-darkgrid"; current := None;
                    events := (events s
                      ++ [SaveFile burndown_png "png" 300 tight_on_white fig;
                          SaveFile burndown_pdf "pdf" 300 tight_on_white fig;
                          Print a; Print b; Print c])%list |}))
    /\ figsize fig = (14, 8)%Q
    /\ fig_dpi fig = 300
    /\ vspans fig = []
    /\ vlines fig = []
    /\ marker_points fig = []
    /\ line_series fig
       = [("Ideal Burndown", GenerateBurndownCharts.g_dates g,
           GenerateBurndownCharts.g_ideal_remaining g);
          ("Actual Remaining Tasks", GenerateBurndownCharts.g_dates g,
           map Exact.of_int GenerateBurndownCharts.actual_remaining)]
    /\ fig_style fig = "seaborn-v0_8-darkgrid"
    /\ chart_data fig
       = [Line (GenerateBurndownCharts.g_dates g)
               (GenerateBurndownCharts.g_ideal_remaining g);
          Line (GenerateBurndownCharts.g_dates g)
               (map Exact.of_int GenerateBurndownCharts.actual_remaining)].
Proof.
  remember (GenerateBurndownCharts.g_dates g) as ds eqn:Hds.
  remember (GenerateBurndownCharts.g_ideal_remaining g) as ideal eqn:Hideal.
  eexists. eexists. eexists. eexists. split.
  { intros [st0 cur es0]. cbn [events].
    unfold GenerateBurndownCharts.create_standard_burndown.
    rewrite <- Hds, <- Hideal. clear Hds Hideal.
    py_evaluate. }
  do 7 (split; [vm_compute; reflexivity|]). vm_compute. reflexivity.
Qed.

Lemma print_step {B : Type} (line : string) (k : unit -> Py B)
    (st : string) (cur : option figure) (es : list event) :
  (print line ≫= k) {| style := st; current := cur; events := es |}
  = k tt {| style := st; current := cur; events := (es ++ [Print line])%list |}.
Proof. reflexivity. Qed.

(** [main] of [generate_burndown_charts.py] on any data with at least 12
    dates: the lines of the summary, the standard chart, the enhanced
    chart, the closing lines. *)
Lemma charts_main_run (g : GenerateBurndownCharts.globals) :
  length (GenerateBurndownCharts.g_dates g) = 15%nat ->
  exists (fig1 fig2 : figure) (new : list event),
    (forall s : pystate,
       GenerateBurndownCharts.main g s
       = Ok (tt, {| style := "seaborn-v0_8-darkgrid"; current := None;
                    events := (events s ++ new)%list |}))
    /\ saves new = [(burndown_png, "png", 300, fig1);
                    (burndown_pdf, "pdf", 300, fig1);
                    (enhanced_png, "png", 300, fig2);
                    (enhanced_pdf, "pdf", 300, fig2)]
    /\ length (printed new) = 18%nat
    /\ (vspans fig1 = [] /\ vlines fig1 = [] /\ marker_points fig1 = [])
    /\ vspans fig2
       = map (fun d => (d, d))
             (filter weekend (GenerateBurndownCharts.g_dates g))
    /\ line_series fig1 = line_series fig2.
Proof.
  intros Hlen.
  destruct (standard_chart_run g)
    as (fig1 & a1 & b1 & c1 & Hstd & _ & _ & Hs1 & Hv1 & Hm1 & Hl1 & _).
  destruct (enhanced_chart_run g Hlen)
    as (d11 & fig2 & a2 & b2 & c2 & _ & Henh & _ & _ & Hs2 & _ & _ & Hl2 & _).
  exists fig1, fig2. eexists. split.
  { intros [st0 cur es0]. cbn [events].
    unfold GenerateBurndownCharts.main.
    rewrite !print_step.
    erewrite Py_bind_ok; [|apply Hstd]. cbn [events].
    erewrite Py_bind_ok; [|apply Henh]. cbn [events].
    rewrite !print_step. unfold print, modify. cbn [events style current].
    rewrite <- !app_assoc. cbn [app]. reflexivity. }
  split; [reflexivity|]. split; [reflexivity|].
  split; [auto|]. split; [exact Hs2|]. congruence.
Qed.

(** ** The chart functions on any data *)

Lemma zero_width_spans (l : list datetime) :
  Forall (fun sp => span_days sp = 0) (map (fun d => (d, d)) l).
Proof.
  apply Forall_forall. intros sp Hin. apply list_elem_of_In, in_map_iff in Hin.
  destruct Hin as (d & <- & _). unfold span_days, sub_days. cbn. lia.
Qed.

(** X1. Whatever 15 dates the module holds, [create_enhanced_burndown],
    run from a fresh interpreter, succeeds and saves one figure twice (PNG
    and PDF, 300 DPI); on that figure [axvspan] was called once for each
    date whose [weekday()] is 5 or 6, in order, and for no other date,
    each time from the date to the same date, a span of width 0; the one
    vertical line and the one star marker sit at the 12th date, the marker
    at height 0.  (matplotlib refuses to plot series of unequal length,
    which the model of [plot] does not check, so the lengths are
    hypotheses.) *)
Theorem enhanced_chart_spans_the_weekend_dates_of_any_dates
    (g : GenerateBurndownCharts.globals)
    (Hdates : length (GenerateBurndownCharts.g_dates g) = 15%nat)
    (Hideal : length (GenerateBurndownCharts.g_ideal_remaining g) = 15%nat) :
  exists (es : list event) (fig : figure) (d11 : datetime),
    run (GenerateBurndownCharts.create_enhanced_burndown g) = Ok es
    /\ saves es = [(enhanced_png, "png", 300, fig);
                   (enhanced_pdf, "pdf", 300, fig)]
    /\ GenerateBurndownCharts.g_dates g !! 11%nat = Some d11
    /\ vspans fig
       = map (fun d => (d, d))
             (filter weekend (GenerateBurndownCharts.g_dates g))
    /\ Forall (fun sp => span_days sp = 0) (vspans fig)
    /\ vlines fig = [d11]
    /\ marker_points fig = [(d11, 0%Q)].
Proof.
  destruct (enhanced_chart_run g Hdates)
    as (d11 & fig & a & b & c & Hd & Hrun & _ & _ & Hs & Hv & Hm & _).
  eexists. exists fig, d11.
  split; [unfold run; rewrite Hrun; reflexivity|].
  split; [reflexivity|]. split; [exact Hd|]. split; [exact Hs|].
  split; [rewrite Hs; apply zero_width_spans|]. split; assumption.
Qed.

(** On the dates of the sprint the test picks the two weekends. *)
Lemma enhanced_chart_spans_the_weekend_dates_of_the_sprint :
  exists (es : list event) (fig : figure),
    run (GenerateBurndownCharts.create_enhanced_burndown sprint_globals)
    = Ok es
    /\ saves es = [(enhanced_png, "png", 300, fig);
                   (enhanced_pdf, "pdf", 300, fig)]
    /\ vspans fig = [(feb 7, feb 7); (feb 8, feb 8);
                     (feb 14, feb 14); (feb 15, feb 15)]
    /\ Forall (fun sp => span_days sp = 0) (vspans fig)
    /\ vlines fig = [feb 15]
    /\ marker_points fig = [(feb 15, 0%Q)].
Proof.
  destruct (enhanced_chart_spans_the_weekend_dates_of_any_dates
              sprint_globals eq_refl eq_refl)
    as (es & fig & d11 & Hrun & Hsaves & Hd & Hs & Hz & Hv & Hm).
  injection Hd as <-.
  exists es, fig. repeat split; assumption.
Defined.

(** X2. Whatever 15 dates and 15 ideal values the module holds,
    [create_standard_burndown], run from a fresh interpreter, succeeds,
    sets the darkgrid style and saves one figure twice (PNG and PDF, 300
    DPI); the data on the figure are exactly two line plots, the ideal
    values and the actual counts against the dates, labelled
    Ideal Burndown and Actual Remaining Tasks: no [axvline], [axvspan],
    [scatter] or marker-only plot is called. *)
Theorem standard_chart_draws_the_two_series_of_any_dates
    (g : GenerateBurndownCharts.globals)
    (Hdates : length (GenerateBurndownCharts.g_dates g) = 15%nat)
    (Hideal : length (GenerateBurndownCharts.g_ideal_remaining g) = 15%nat) :
  exists (es : list event) (fig : figure),
    run (GenerateBurndownCharts.create_standard_burndown g) = Ok es
    /\ saves es = [(burndown_png, "png", 300, fig);
                   (burndown_pdf, "pdf", 300, fig)]
    /\ fig_style fig = "seaborn-v0_8-darkgrid"
    /\ chart_data fig
       = [Line (GenerateBurndownCharts.g_dates g)
               (GenerateBurndownCharts.g_ideal_remaining g);
          Line (GenerateBurndownCharts.g_dates g)
               (map Exact.of_int GenerateBurndownCharts.actual_remaining)]
    /\ map (fun s => s.1.1) (line_series fig)
       = ["Ideal Burndown"; "Actual Remaining Tasks"].
Proof.
  destruct (standard_chart_run g)
    as (fig & a & b & c & Hrun & _ & _ & _ & _ & _ & Hl & Hst & Hdata).
  eexists. exists fig.
  split; [unfold run; rewrite Hrun; reflexivity|].
  split; [reflexivity|]. split; [exact Hst|]. split; [exact Hdata|].
  rewrite Hl. reflexivity.
Qed.

Lemma standard_chart_draws_the_two_series_of_the_sprint :
  exists (es : list event) (fig : figure),
    run (GenerateBurndownCharts.create_standard_burndown sprint_globals)
    = Ok es
    /\ saves es = [(burndown_png, "png", 300, fig);
                   (burndown_pdf, "pdf", 300, fig)]
    /\ fig_style fig = "seaborn-v0_8-darkgrid"
    /\ chart_data fig
       = [Line sprint_dates
               [4; 26 # 7; 24 # 7; 22 # 7; 20 # 7; 18 # 7; 16 # 7; 2;
                12 # 7; 10 # 7; 8 # 7; 6 # 7; 4 # 7; 2 # 7; 0]%Q;
          Line sprint_dates [4; 3; 3; 3; 3; 3; 2; 2; 1; 1; 1; 0; 0; 0; 0]%Q]
    /\ map (fun s => s.1.1) (line_series fig)
       = ["Ideal Burndown"; "Actual Remaining Tasks"].
Proof.
  exact (standard_chart_draws_the_two_series_of_any_dates
           sprint_globals eq_refl eq_refl).
Defined.

(** X4. [main] of [generate_burndown_charts.py], on any 15 dates and run
    from a fresh interpreter, succeeds with 18 calls of [print] and four
    saves: the standard chart as [sprint0_burndown.png] and [.pdf], then
    the enhanced chart as [sprint0_burndown_enhanced.png] and [.pdf], all
    at 300 DPI.  The two charts draw the same two series; only on the
    enhanced one is [axvspan] called, at the dates whose [weekday()] is 5
    or 6, each span of width 0. *)
Theorem charts_main_writes_both_charts_for_any_dates
    (g : GenerateBurndownCharts.globals)
    (Hdates : length (GenerateBurndownCharts.g_dates g) = 15%nat)
    (Hideal : length (GenerateBurndownCharts.g_ideal_remaining g) = 15%nat) :
  exists (es : list event) (fig1 fig2 : figure),
    run (GenerateBurndownCharts.main g) = Ok es
    /\ saves es = [(burndown_png, "png", 300, fig1);
                   (burndown_pdf, "pdf", 300, fig1);
                   (enhanced_png, "png", 300, fig2);
                   (enhanced_pdf, "pdf", 300, fig2)]
    /\ length (printed es) = 18%nat
    /\ line_series fig1 = line_series fig2
    /\ vspans fig1 = []
    /\ vspans fig2
       = map (fun d => (d, d))
             (filter weekend (GenerateBurndownCharts.g_dates g))
    /\ Forall (fun sp => span_days sp = 0) (vspans fig2).
Proof.
  destruct (charts_main_run g Hdates)
    as (fig1 & fig2 & new & Hrun & Hsaves & Hprinted & (Hs1 & _) & Hs2 & Hl).
  exists new, fig1, fig2.
  split; [unfold run; rewrite Hrun; reflexivity|].
  do 5 (split; [assumption|]).
  rewrite Hs2. apply zero_width_spans.
Qed.

(** On the data of the sprint the 18 strings printed make 23 lines of
    text. *)
Lemma charts_main_writes_both_charts_for_the_sprint :
  exists (es : list event) (fig1 fig2 : figure),
    run (GenerateBurndownCharts.main sprint_globals) = Ok es
    /\ saves es = [(burndown_png, "png", 300, fig1);
                   (burndown_pdf, "pdf", 300, fig1);
                   (enhanced_png, "png", 300, fig2);
                   (enhanced_pdf, "pdf", 300, fig2)]
    /\ length (printed es) = 18%nat
    /\ console_lines (printed es) = 23%nat
    /\ line_series fig1 = line_series fig2
    /\ vspans fig1 = []
    /\ vspans fig2 = [(feb 7, feb 7); (feb 8, feb 8);
                      (feb 14, feb 14); (feb 15, feb 15)].
Proof.
  destruct (charts_main_writes_both_charts_for_any_dates
              sprint_globals eq_refl eq_refl)
    as (es & fig1 & fig2 & Hrun & Hsaves & Hn & Hl & Hs1 & Hs2 & _).
  exists es, fig1, fig2. do 3 (split; [assumption|]).
  split; [|repeat split; assumption].
  assert (E : run (GenerateBurndownCharts.main sprint_globals)
              = Ok (events_of (GenerateBurndownCharts.main sprint_globals)))
    by (vm_compute; reflexivity).
  rewrite E in Hrun. injection Hrun as <-. vm_compute. reflexivity.
Defined.

(** ** Runs that fail, runs that follow one another *)

Lemma os_exec_until_ok (es : list event) :
  forall w w' : world,
    os_exec w es = Ok w' <-> os_exec_until w es = (w', None).
Proof.
  induction es as [|e es IH]; intros w w'; cbn.
  - split; intros H; injection H as <-; reflexivity.
  - destruct (os_step w e) as [w1|x]; [apply IH|].
    split; intros H; discriminate H.
Qed.

(** When the directory of the first file is missing, the run stops there:
    the lines before it are on the console, no file was touched. *)
Lemma os_exec_until_first_save (es : list event) :
  forall (w : world) (p : string) (ps : list string),
    written_paths es = p :: ps ->
    dirname p ∉ dirs w ->
    os_exec_until w es
    = ({| files := files w; dirs := dirs w;
          console := (console w ++ printed_before_save es)%list;
          clock := clock w; ticks := ticks w |},
       Some FileNotFoundError).
Proof.
  induction es as [|[line|path format dpi kw content] es IH];
    intros w p ps Hp Hn.
  - discriminate Hp.
  - cbn.
    rewrite (IH {| files := files w; dirs := dirs w;
                   console := (console w ++ [line])%list;
                   clock := clock w; ticks := ticks w |} p ps Hp Hn).
    cbn. rewrite <- app_assoc. reflexivity.
  - cbn in Hp. injection Hp as <- _. cbn.
    destruct (decide (dirname path ∈ dirs w)); [done|].
    destruct w. cbn. rewrite app_nil_r. reflexivity.
Qed.

Lemma burndown_main_events :
  run GenerateBurndown.main = Ok (events_of GenerateBurndown.main)
  /\ written_paths (events_of GenerateBurndown.main)
     = [burndown_png; burndown_pdf; velocity_png; velocity_pdf]
  /\ printed_before_save (events_of GenerateBurndown.main)
     = take 4 (printed (events_of GenerateBurndown.main))
  /\ length (printed (events_of GenerateBurndown.main)) = 20%nat.
Proof.
  do 3 (split; [vm_compute; reflexivity|]). vm_compute. reflexivity.
Qed.

Lemma charts_program_events :
  run GenerateBurndownCharts.program
  = Ok (events_of GenerateBurndownCharts.program)
  /\ written_paths (events_of GenerateBurndownCharts.program)
     = [burndown_png; burndown_pdf; enhanced_png; enhanced_pdf]
  /\ printed_before_save (events_of GenerateBurndownCharts.program)
     = take 9 (printed (events_of GenerateBurndownCharts.program))
  /\ length (printed (events_of GenerateBurndownCharts.program)) = 18%nat.
Proof.
  do 3 (split; [vm_compute; reflexivity|]). vm_compute. reflexivity.
Qed.

(** The images the two scripts leave, whatever the clock. *)
Lemma burndown_main_writes :
  exists fig1 fig2 : figure,
    (forall (clk : nat -> Z) (t : nat),
       os_writes clk t (events_of GenerateBurndown.main)
       = [(burndown_png,
           {| img_format := "png"; img_dpi := 300; img_kw := tight_on_white;
              img_content := fig1; img_created := clk t |});
          (burndown_pdf,
           {| img_format := "pdf"; img_dpi := 150; img_kw := tight_on_white;
              img_content := fig1; img_created := clk (S t) |});
          (velocity_png,
           {| img_format := "png"; img_dpi := 300; img_kw := tight_on_white;
              img_content := fig2; img_created := clk (S (S t)) |});
          (velocity_pdf,
           {| img_format := "pdf"; img_dpi := 150; img_kw := tight_on_white;
              img_content := fig2; img_created := clk (S (S (S t))) |})])
    /\ vlines fig1 = [feb 15]
    /\ marker_points fig1 = [(feb 15, 0%Q)]
    /\ fig_dpi fig1 = 150.
Proof.
  eexists. eexists. split; [intros clk t; vm_compute; reflexivity|].
  do 2 (split; [vm_compute; reflexivity|]). vm_compute. reflexivity.
Qed.

Lemma charts_program_writes :
  exists fig1 fig2 : figure,
    (forall (clk : nat -> Z) (t : nat),
       os_writes clk t (events_of GenerateBurndownCharts.program)
       = [(burndown_png,
           {| img_format := "png"; img_dpi := 300; img_kw := tight_on_white;
              img_content := fig1; img_created := clk t |});
          (burndown_pdf,
           {| img_format := "pdf"; img_dpi := 300; img_kw := tight_on_white;
              img_content := fig1; img_created := clk (S t) |});
          (enhanced_png,
           {| img_format := "png"; img_dpi := 300; img_kw := tight_on_white;
              img_content := fig2; img_created := clk (S (S t)) |});
          (enhanced_pdf,
           {| img_format := "pdf"; img_dpi := 300; img_kw := tight_on_white;
              img_content := fig2; img_created := clk (S (S (S t))) |})])
    /\ vlines fig1 = []
    /\ marker_points fig1 = []
    /\ fig_dpi fig1 = 300.
Proof.
  eexists. eexists. split; [intros clk t; vm_compute; reflexivity|].
  do 2 (split; [vm_compute; reflexivity|]). vm_compute. reflexivity.
Qed.

Lemma dirs_of_the_paths (w : world) (l : list string) :
  charts_dir ∈ dirs w ->
  Forall (fun p => dirname p = charts_dir) l ->
  Forall (fun p => dirname p ∈ dirs w) l.
Proof.
  intros Hd Hl. eapply Forall_impl; [exact Hl|].
  intros p Hp. cbn in Hp. rewrite Hp. exact Hd.
Qed.

Lemma execute_then (script1 script2 : Py unit) (es1 es2 : list event)
    (w : world) :
  run script1 = Ok es1 ->
  run script2 = Ok es2 ->
  Forall (fun p => dirname p ∈ dirs w) (written_paths es1) ->
  Forall (fun p => dirname p ∈ dirs w) (written_paths es2) ->
  exists w1 w2 : world,
    execute script1 w = Ok w1
    /\ execute script2 w1 = Ok w2
    /\ (forall p, files w1 !! p
                  = match last_write p (os_writes (clock w) (ticks w) es1) with
                    | Some i => Some i
                    | None => files w !! p
                    end)
    /\ (forall p, files w2 !! p
                  = match last_write p
                            (os_writes (clock w1) (ticks w1) es2) with
                    | Some i => Some i
                    | None => files w1 !! p
                    end).
Proof.
  intros Hrun1 Hrun2 Hd1 Hd2.
  destruct (execute_ok script1 es1 w Hrun1 Hd1) as (w1 & Hx1 & Hf1 & _ & Hdw).
  assert (Hd2' : Forall (fun p => dirname p ∈ dirs w1) (written_paths es2))
    by (rewrite Hdw; exact Hd2).
  destruct (execute_ok script2 es2 w1 Hrun2 Hd2') as (w2 & Hx2 & Hf2 & _).
  exists w1, w2. repeat split; assumption.
Qed.

Lemma charts_paths_under_the_directory (w : world) :
  charts_dir ∈ dirs w ->
  Forall (fun p => dirname p ∈ dirs w)
         (written_paths (events_of GenerateBurndown.main))
  /\ Forall (fun p => dirname p ∈ dirs w)
            (written_paths (events_of GenerateBurndownCharts.program)).
Proof.
  intros Hd.
  destruct burndown_main_events as (_ & Hp1 & _).
  destruct charts_program_events as (_ & Hp2 & _).
  rewrite Hp1, Hp2. split; repeat constructor; exact Hd.
Qed.

(** X6. Both scripts write [sprint0_burndown.png] and
    [sprint0_burndown.pdf], so run one after the other, where the charts
    directory exists, the second run replaces the burndown chart of the
    first: after [generate_burndown.py] then [generate_burndown_charts.py]
    the file holds the chart without completion line, after the other
    order the chart with it (and a PDF saved at the figure's 150 DPI).  The
    chart only one script writes (velocity, enhanced) is left as it was. *)
Theorem the_last_script_run_decides_the_burndown_chart
    (w : world) (Hdir : charts_dir ∈ dirs w) :
  (exists (w1 w2 : world) (i j v : image),
     execute GenerateBurndown.main w = Ok w1
     /\ execute GenerateBurndownCharts.program w1 = Ok w2
     /\ files w2 !! burndown_png = Some i
     /\ vlines (img_content i) = []
     /\ files w2 !! burndown_pdf = Some j
     /\ img_dpi j = 300
     /\ files w1 !! velocity_png = Some v
     /\ files w2 !! velocity_png = Some v)
  /\ (exists (w1 w2 : world) (i j e : image),
        execute GenerateBurndownCharts.program w = Ok w1
        /\ execute GenerateBurndown.main w1 = Ok w2
        /\ files w2 !! burndown_png = Some i
        /\ vlines (img_content i) = [feb 15]
        /\ files w2 !! burndown_pdf = Some j
        /\ img_dpi j = 150
        /\ files w1 !! enhanced_png = Some e
        /\ files w2 !! enhanced_png = Some e).
Proof.
  destruct (charts_paths_under_the_directory w Hdir) as (Hd1 & Hd2).
  destruct burndown_main_events as (Hrun1 & _).
  destruct charts_program_events as (Hrun2 & _).
  destruct burndown_main_writes as (b1 & b2 & Hb & Hbv & _).
  destruct charts_program_writes as (c1 & c2 & Hc & Hcv & _).
  split.
  - destruct (execute_then _ _ _ _ w Hrun1 Hrun2 Hd1 Hd2)
      as (w1 & w2 & Hx1 & Hx2 & Hf1 & Hf2).
    exists w1, w2. eexists. eexists. eexists.
    split; [exact Hx1|]. split; [exact Hx2|].
    split; [rewrite Hf2, Hc; reflexivity|]. split; [exact Hcv|].
    split; [rewrite Hf2, Hc; reflexivity|]. split; [reflexivity|].
    split; [rewrite Hf1, Hb; reflexivity|].
    rewrite Hf2, Hc. cbn. rewrite Hf1, Hb. reflexivity.
  - destruct (execute_then _ _ _ _ w Hrun2 Hrun1 Hd2 Hd1)
      as (w1 & w2 & Hx1 & Hx2 & Hf1 & Hf2).
    exists w1, w2. eexists. eexists. eexists.
    split; [exact Hx1|]. split; [exact Hx2|].
    split; [rewrite Hf2, Hb; reflexivity|]. split; [exact Hbv|].
    split; [rewrite Hf2, Hb; reflexivity|]. split; [reflexivity|].
    split; [rewrite Hf1, Hc; reflexivity|].
    rewrite Hf2, Hb. cbn. rewrite Hf1, Hc. reflexivity.
Qed.

Lemma the_last_script_run_decides_in_an_empty_world :
  charts_dir ∈ dirs empty_world
  /\ exists (w1 w2 : world) (i j v : image),
       execute GenerateBurndown.main empty_world = Ok w1
       /\ execute GenerateBurndownCharts.program w1 = Ok w2
       /\ files w2 !! burndown_png = Some i
       /\ vlines (img_content i) = []
       /\ files w2 !! burndown_pdf = Some j
       /\ img_dpi j = 300
       /\ files w1 !! velocity_png = Some v
       /\ files w2 !! velocity_png = Some v.
Proof.
  assert (Hdir : charts_dir ∈ dirs empty_world) by (vm_compute; reflexivity).
  split; [exact Hdir|].
  exact (proj1 (the_last_script_run_decides_the_burndown_chart
                  empty_world Hdir)).
Defined.

(** The lines of text the strings printed make, in all and before the
    first file is saved. *)
Lemma console_lines_of_the_scripts :
  console_lines (printed (events_of GenerateBurndown.main)) = 20%nat
  /\ console_lines (take 4 (printed (events_of GenerateBurndown.main)))
     = 4%nat
  /\ console_lines (printed (events_of GenerateBurndownCharts.program))
     = 23%nat
  /\ console_lines (take 9 (printed (events_of GenerateBurndownCharts.program)))
     = 12%nat.
Proof. do 3 (split; [vm_compute; reflexivity|]). vm_compute. reflexivity. Qed.

(** X8. Where the charts directory does not exist either script stops at
    its first [savefig] with [FileNotFoundError]: no file has been
    touched, and the console holds only what was printed before that call:
    the strings of the first 4 of the 20 calls of [print] of
    [generate_burndown.py] (4 of its 20 lines of text), of the first 9 of
    the 18 calls of [generate_burndown_charts.py] (12 of its 23 lines of
    text). *)
Theorem a_missing_directory_stops_the_run_before_any_file
    (w : world) (Hmissing : charts_dir ∉ dirs w) :
  (exists es : list event,
     run GenerateBurndown.main = Ok es
     /\ execute GenerateBurndown.main w = Raise FileNotFoundError
     /\ os_exec_until w es
        = ({| files := files w; dirs := dirs w;
              console := (console w ++ take 4 (printed es))%list;
              clock := clock w; ticks := ticks w |},
           Some FileNotFoundError)
     /\ length (printed es) = 20%nat
     /\ console_lines (printed es) = 20%nat
     /\ console_lines (take 4 (printed es)) = 4%nat)
  /\ (exists es : list event,
        run GenerateBurndownCharts.program = Ok es
        /\ execute GenerateBurndownCharts.program w = Raise FileNotFoundError
        /\ os_exec_until w es
           = ({| files := files w; dirs := dirs w;
                 console := (console w ++ take 9 (printed es))%list;
                 clock := clock w; ticks := ticks w |},
              Some FileNotFoundError)
        /\ length (printed es) = 18%nat
        /\ console_lines (printed es) = 23%nat
        /\ console_lines (take 9 (printed es)) = 12%nat).
Proof.
  destruct burndown_main_events as (Hrun1 & Hp1 & Hb1 & Hn1).
  destruct charts_program_events as (Hrun2 & Hp2 & Hb2 & Hn2).
  destruct console_lines_of_the_scripts as (Hc1 & Hc1' & Hc2 & Hc2').
  split.
  - exists (events_of GenerateBurndown.main).
    split; [exact Hrun1|]. split; [|split; [|repeat split; assumption]].
    + unfold execute. rewrite Hrun1.
      exact (os_exec_first_dir_missing _ w _ _ Hp1 Hmissing).
    + rewrite <- Hb1. exact (os_exec_until_first_save _ w _ _ Hp1 Hmissing).
  - exists (events_of GenerateBurndownCharts.program).
    split; [exact Hrun2|]. split; [|split; [|repeat split; assumption]].
    + unfold execute. rewrite Hrun2.
      exact (os_exec_first_dir_missing _ w _ _ Hp2 Hmissing).
    + rewrite <- Hb2. exact (os_exec_until_first_save _ w _ _ Hp2 Hmissing).
Qed.

Lemma a_missing_directory_stops_the_run_in_a_bare_world :
  (charts_dir ∉ dirs bare_world)
  /\ exists es : list event,
       run GenerateBurndownCharts.program = Ok es
       /\ execute GenerateBurndownCharts.program bare_world
          = Raise FileNotFoundError
       /\ os_exec_until bare_world es
          = ({| files := files bare_world; dirs := dirs bare_world;
                console := (console bare_world ++ take 9 (printed es))%list;
                clock := clock bare_world; ticks := ticks bare_world |},
             Some FileNotFoundError)
       /\ length (printed es) = 18%nat
       /\ console_lines (printed es) = 23%nat
       /\ console_lines (take 9 (printed es)) = 12%nat.
Proof.
  assert (Hmissing : charts_dir ∉ dirs bare_world)
    by (vm_compute; intros H; discriminate H).
  split; [exact Hmissing|].
  exact (proj2 (a_missing_directory_stops_the_run_before_any_file
                  bare_world Hmissing)).
Defined.

(** ** Parsing the dates *)





